(** * Deli_autoSignUp: the jittered daily scheduler and its mail helper

    A shallow embedding of [scheduler.py] and [send_email.py].

    - Python integers are [Z]; a [datetime.date] is its proleptic Gregorian
      ordinal ([date.toordinal()]); a naive [datetime.datetime] is a record
      of that ordinal and the four time fields.
    - Exceptions are explicit: fallible code returns [result], and
      [try ... except Exception] is the combinator [try_except], which
      lets the classes outside [Exception] through.
    - The process-wide random source, the wall clock, the file system, the
      child process, the SMTP peer, the serialiser of the [email] library
      and the standard output are inputs of the model (oracles); the log
      and the other visible effects are an output trace.
    - A Python [str] that the code encodes itself is a list of code points.
    - The set [today_executed] is a [gset] of slot keys. *)

From stdpp Require Import base tactics option list strings gmap.
From Stdlib Require Import ZArith Lia.

Open Scope Z_scope.

(** ** Exceptions *)

Inductive exc_class : Type :=
  | ValueError
  | IndexError
  | OverflowError
  | UnicodeEncodeError
  | UnicodeDecodeError
  | HeaderParseError
  | HeaderWriteError
  | OSError
  | FileNotFoundError
  | FileExistsError
  | NotADirectoryError
  | PermissionError
  | BrokenPipeError
  | ConnectionRefusedError
  | TimeoutError
  | SubprocessError
  | SSLError
  | SMTPException
  | SMTPServerDisconnected
  | SMTPNotSupportedError
  | SMTPAuthenticationError
  | SMTPSenderRefused
  | SMTPRecipientsRefused
  | SMTPDataError
  | KeyboardInterrupt
  | SystemExit.

(** [issubclass(c, Exception)]: everything but the two classes that derive
    from [BaseException] directly. *)
Definition is_Exception (c : exc_class) : bool :=
  match c with
  | KeyboardInterrupt | SystemExit => false
  | _ => true
  end.

Inductive result (A : Type) : Type :=
  | Ok (a : A)
  | Raise (e : exc_class).
Arguments Ok {A} a.
Arguments Raise {A} e.

#[global] Instance result_ret : MRet result := fun _ a => Ok a.
#[global] Instance result_bind : MBind result := fun _ _ f m =>
  match m with
  | Ok a => f a
  | Raise e => Raise e
  end.

(** [try: body except Exception: handler]. *)
Definition try_except {A : Type} (body : result A) (handler : exc_class → result A)
  : result A :=
  match body with
  | Ok a => Ok a
  | Raise e => if is_Exception e then handler e else Raise e
  end.

(** ** The [datetime] module *)

Module datetime.

(** [date.max.toordinal()], the ordinal of 9999-12-31. *)
Definition MAXORDINAL : Z := 3652059.

(** [datetime.time(hour, minute)]: second and microsecond default to 0. *)
Record time : Type := mk_time { t_hour : Z; t_minute : Z }.

(** The arguments are converted to C [int]s first, in their order; an
    integer outside that range is an [OverflowError]. *)
Definition fits_c_int (x : Z) : bool := (-2147483648 <=? x) && (x <=? 2147483647).

Definition time_new (hour minute : Z) : result time :=
  if negb (fits_c_int hour) then Raise OverflowError
  else if negb (fits_c_int minute) then Raise OverflowError
  else if negb ((0 <=? hour) && (hour <=? 23)) then Raise ValueError
  else if negb ((0 <=? minute) && (minute <=? 59)) then Raise ValueError
  else Ok (mk_time hour minute).

(** A naive [datetime.datetime]; [date] is what [.date()] returns. *)
Record t : Type := mk {
  date : Z;
  hour : Z;
  minute : Z;
  second : Z;
  microsecond : Z
}.

Definition combine (d : Z) (tm : time) : t :=
  mk d (t_hour tm) (t_minute tm) 0 0.

(** A normalised [datetime.timedelta]. *)
Record timedelta : Type := mk_td { days : Z; seconds : Z; microseconds : Z }.

Definition MAX_DELTA_DAYS : Z := 999999999.

(** [timedelta(seconds=s)] for an integer [s]. *)
Definition timedelta_seconds (s : Z) : result timedelta :=
  let d := s `div` 86400 in
  if (Z.abs d >? MAX_DELTA_DAYS) then Raise OverflowError
  else Ok (mk_td d (s `mod` 86400) 0).

(** [timedelta(days=d)] for an integer [d]. *)
Definition timedelta_days (d : Z) : result timedelta :=
  if (Z.abs d >? MAX_DELTA_DAYS) then Raise OverflowError
  else Ok (mk_td d 0 0).

(** [date + timedelta]: only the days count. *)
Definition date_add (d : Z) (td : timedelta) : result Z :=
  let o := d + days td in
  if (0 <? o) && (o <=? MAXORDINAL) then Ok o else Raise OverflowError.

(** [datetime + timedelta]: carry microseconds into seconds and seconds
    into days, then split the seconds of the day again. *)
Definition add (x : t) (td : timedelta) : result t :=
  let us := microsecond x + microseconds td in
  let s := hour x * 3600 + minute x * 60 + second x + seconds td
           + us `div` 1000000 in
  let d := date x + days td + s `div` 86400 in
  let sod := s `mod` 86400 in
  if (0 <? d) && (d <=? MAXORDINAL)
  then Ok (mk d (sod `div` 3600) ((sod `mod` 3600) `div` 60) (sod `mod` 60)
              (us `mod` 1000000))
  else Raise OverflowError.

(** Comparison is the comparison of the field tuples. *)
Definition fields (x : t) : list Z :=
  [date x; hour x; minute x; second x; microsecond x].

Fixpoint tuple_compare (a b : list Z) : comparison :=
  match a, b with
  | [], [] => Eq
  | [], _ :: _ => Lt
  | _ :: _, [] => Gt
  | x :: a', y :: b' =>
      match x ?= y with
      | Eq => tuple_compare a' b'
      | c => c
      end
  end.

Definition compare (x y : t) : comparison := tuple_compare (fields x) (fields y).

(** [x < y] and [x > y]. *)
Definition ltb (x y : t) : bool :=
  match compare x y with Lt => true | _ => false end.
Definition gtb (x y : t) : bool := ltb y x.
(** [x <= y]. *)
Definition leb (x y : t) : bool := negb (ltb y x).

(** What the constructors of the module guarantee of every value. *)
Definition valid (x : t) : Prop :=
  1 <= date x <= MAXORDINAL ∧ 0 <= hour x <= 23 ∧ 0 <= minute x <= 59 ∧
  0 <= second x <= 59 ∧ 0 <= microsecond x <= 999999.

(** [(x - y)] in microseconds (what [total_seconds()] scales). *)
Definition to_us (x : t) : Z :=
  ((date x * 86400 + hour x * 3600 + minute x * 60 + second x) * 1000000)
  + microsecond x.
Definition sub_us (x y : t) : Z := to_us x - to_us y.

End datetime.

(** ** The [random] module *)

(** The process-wide generator: an endless sequence of raw draws and the
    number of draws made so far. *)
Record Rng : Type := mk_rng { rng_raw : nat → Z; rng_pos : nat }.

(** [random.randint(a, b)]: an integer of [a..b], both ends included;
    an empty range is a [ValueError].  Every value of the range is the
    outcome for some raw draw. *)
Definition randint (a b : Z) (g : Rng) : result (Z * Rng) :=
  if b <? a then Raise ValueError
  else Ok (a + rng_raw g (rng_pos g) `mod` (b - a + 1),
           mk_rng (rng_raw g) (S (rng_pos g))).

(** ** [get_next_schedule_time] *)

(** [min(l)] on a non-empty list [x :: l]: the first of the smallest. *)
Definition py_min (x : datetime.t) (l : list datetime.t) : datetime.t :=
  fold_left (fun acc y => if datetime.ltb y acc then y else acc) l x.

(** The [for hour, minute in schedule_times] loop: today's instant of each
    base time, each with a jitter of its own, in the order of the schedule. *)
Fixpoint scheduled_times_loop (today : Z) (schedule_times : list (Z * Z))
    (jitter_minutes : Z) (g : Rng) : result (list datetime.t * Rng) :=
  match schedule_times with
  | [] => Ok ([], g)
  | (hour, minute) :: rest =>
      tm ← datetime.time_new hour minute;
      let base_time := datetime.combine today tm in
      '(jitter_seconds, g) ← randint (- jitter_minutes * 60) (jitter_minutes * 60) g;
      td ← datetime.timedelta_seconds jitter_seconds;
      scheduled_time ← datetime.add base_time td;
      '(others, g) ← scheduled_times_loop today rest jitter_minutes g;
      Ok (scheduled_time :: others, g)
  end.

(** [schedule_times[0]]. *)
Definition first_of (schedule_times : list (Z * Z)) : result (Z * Z) :=
  match schedule_times with
  | [] => Raise IndexError
  | p :: _ => Ok p
  end.

Definition get_next_schedule_time (now : datetime.t)
    (schedule_times : list (Z * Z)) (jitter_minutes : Z) (g : Rng)
  : result (datetime.t * Rng) :=
  let today := datetime.date now in
  '(scheduled_times, g) ← scheduled_times_loop today schedule_times jitter_minutes g;
  let future_times := filter (fun t => datetime.gtb t now = true) scheduled_times in
  match future_times with
  | t :: ts => Ok (py_min t ts, g)
  | [] =>
      one_day ← datetime.timedelta_days 1;
      tomorrow ← datetime.date_add today one_day;
      first_schedule ← first_of schedule_times;
      tm ← datetime.time_new first_schedule.1 first_schedule.2;
      let base_time := datetime.combine tomorrow tm in
      '(jitter_seconds, g) ← randint (- jitter_minutes * 60) (jitter_minutes * 60) g;
      td ← datetime.timedelta_seconds jitter_seconds;
      r ← datetime.add base_time td;
      Ok (r, g)
  end.

(** ** The world the scheduler runs in *)

(** An endless sequence of answers of the environment, and how many of them
    were consumed. *)
Record oracle (A : Type) : Type := mk_oracle { answers : nat → A; asked : nat }.
Arguments mk_oracle {A} answers asked.
Arguments answers {A} o n.
Arguments asked {A} o.

Definition ask {A : Type} (o : oracle A) : A * oracle A :=
  (answers o (asked o), mk_oracle (answers o) (S (asked o))).

(** What [subprocess.run] can raise when the child cannot be started. *)
Inductive launch_error : Type :=
  | NoSuchFile
  | NotPermitted
  | OtherOSError
  | BadArgument
  | OtherSubprocessError.

Definition launch_exc (l : launch_error) : exc_class :=
  match l with
  | NoSuchFile => FileNotFoundError
  | NotPermitted => PermissionError
  | OtherOSError => OSError
  | BadArgument => ValueError
  | OtherSubprocessError => SubprocessError
  end.

(** [subprocess.CompletedProcess] with [capture_output=True, text=True]. *)
Record CompletedProcess : Type := mk_proc {
  returncode : Z;
  stdout : string;
  stderr : string
}.

(** What a call of [subprocess.run] comes to: the child ran and its output
    was captured as text; or the child could not be started; or the child
    ran and exited with [returncode], but what it wrote is no text in the
    locale's encoding, so that decoding it ([text=True]) raises. *)
Inductive run_outcome : Type :=
  | Completed (proc : CompletedProcess)
  | NotLaunched (l : launch_error)
  | Undecodable (returncode : Z).

(** What the file system can refuse when the log is set up. *)
Inductive fs_call : Type :=
  | Makedirs (log_dir : string)                 (* [os.makedirs], line 25 *)
  | OpenLog (log_dir : string) (today : Z).     (* [logging.FileHandler], line 31 *)

Inductive fs_failure : Type :=
  | FsPermissionDenied
  | FsFileExists
  | FsNotADirectory
  | FsOtherOSError.

Definition fs_exc (f : fs_failure) : exc_class :=
  match f with
  | FsPermissionDenied => PermissionError
  | FsFileExists => FileExistsError
  | FsNotADirectory => NotADirectoryError
  | FsOtherOSError => OSError
  end.

Inductive level : Type := DEBUG | INFO | WARNING | ERROR.

(** One constructor per logging call of [scheduler.py], carrying the values
    its f-string formats. *)
Inductive message : Type :=
  | MsgSchedulerStart                                  (* line 94 *)
  | MsgScriptMissing (deli_path : string)              (* line 97 *)
  | MsgNewDay (current_day : Z)                        (* line 116 *)
  | MsgNextRun (target : datetime.t) (wait_us : Z)     (* line 122 *)
  | MsgSkip (target : datetime.t)                      (* line 135 *)
  | MsgDispatch (target : datetime.t)                  (* line 139 *)
  | MsgExecutedCount (n : nat)                         (* line 144 *)
  | MsgOnceExit                                        (* line 147 *)
  | MsgWaitNext                                        (* line 150 *)
  | MsgChildStart (script_path : string)               (* line 69 *)
  | MsgChildExit (rc : Z)                              (* line 72 *)
  | MsgStdoutHeader                                    (* line 74 *)
  | MsgStderrHeader                                    (* line 77 *)
  | MsgText (s : string)                               (* lines 75, 78 *)
  | MsgLaunchFailed (e : exc_class).                   (* line 81 *)

Inductive event : Type :=
  | Log (lv : level) (m : message)
  | Sleep (us : Z)
  | Spawn (script_path : string).   (* [subprocess.run] was called *)

Record World : Type := mk_world {
  clock : oracle datetime.t;        (* what reading the wall clock returns *)
  rng : Rng;                        (* the [random] module's generator *)
  children : oracle run_outcome;    (* what each [subprocess.run] does *)
  is_file : string → bool;          (* [os.path.isfile] *)
  log_day : option Z;               (* the day in the log file's name *)
  trace : list event;               (* visible effects, oldest first *)
  log_fs : fs_call → option fs_failure   (* the file system under the log *)
}.

(** ** Effectful code: state and exceptions, and fuel for the wait *)

Inductive outcome (A : Type) : Type :=
  | Val (a : A)
  | Exn (e : exc_class)
  | OutOfFuel.
Arguments Val {A} a.
Arguments Exn {A} e.
Arguments OutOfFuel {A}.

Definition Eff (A : Type) : Type := World → outcome A * World.

#[global] Instance Eff_ret : MRet Eff := fun _ a w => (Val a, w).
#[global] Instance Eff_bind : MBind Eff := fun _ _ f m w =>
  match m w with
  | (Val a, w') => f a w'
  | (Exn e, w') => (Exn e, w')
  | (OutOfFuel, w') => (OutOfFuel, w')
  end.

Definition try_except_eff {A : Type} (body : Eff A) (handler : exc_class → Eff A)
  : Eff A := fun w =>
  match body w with
  | (Exn e, w') => if is_Exception e then handler e w' else (Exn e, w')
  | r => r
  end.

Definition emit (ev : event) : Eff unit := fun w =>
  (Val tt, mk_world (clock w) (rng w) (children w) (is_file w) (log_day w)
                    (trace w ++ [ev]) (log_fs w)).

Definition logger_info (m : message) : Eff unit := emit (Log INFO m).
Definition logger_warning (m : message) : Eff unit := emit (Log WARNING m).
Definition logger_error (m : message) : Eff unit := emit (Log ERROR m).
(** [logger.exception] logs at level ERROR (and appends the traceback). *)
Definition logger_exception (m : message) : Eff unit := emit (Log ERROR m).

(** [datetime.datetime.now()]. *)
Definition datetime_now : Eff datetime.t := fun w =>
  let (now, c) := ask (clock w) in
  (Val now, mk_world c (rng w) (children w) (is_file w) (log_day w) (trace w) (log_fs w)).

(** [datetime.date.today()]. *)
Definition date_today : Eff Z := now ← datetime_now; mret (datetime.date now).

(** [time.sleep(min(60, remaining))], [remaining] in microseconds here. *)
Definition time_sleep (us : Z) : Eff unit := emit (Sleep us).

Definition os_path_isfile (path : string) : Eff bool := fun w =>
  (Val (is_file w path), w).

(** [os.path.join(a, b)] for a relative [b], on POSIX. *)
Fixpoint ends_with_slash (a : string) : bool :=
  match a with
  | EmptyString => false
  | String c EmptyString => if Ascii.ascii_dec c (Ascii.ascii_of_nat 47) then true else false
  | String _ rest => ends_with_slash rest
  end.

Definition os_path_join (a b : string) : string :=
  match a with
  | EmptyString => b
  | _ => if ends_with_slash a then (a +:+ b)%string else (a +:+ "/" +:+ b)%string
  end.

(** Running a pure computation on the generator of the world. *)
Definition with_rng {A : Type} (f : Rng → result (A * Rng)) : Eff A := fun w =>
  match f (rng w) with
  | Ok (a, g) =>
      (Val a, mk_world (clock w) g (children w) (is_file w) (log_day w) (trace w) (log_fs w))
  | Raise e => (Exn e, w)
  end.

(** [subprocess.run([sys.executable, script_path], capture_output=True,
    text=True)]. *)
Definition subprocess_run (script_path : string) : Eff CompletedProcess := fun w =>
  let (o, c) := ask (children w) in
  let w' := mk_world (clock w) (rng w) c (is_file w) (log_day w)
                     (trace w ++ [Spawn script_path]) (log_fs w) in
  match o with
  | Completed proc => (Val proc, w')
  | NotLaunched l => (Exn (launch_exc l), w')
  | Undecodable _ => (Exn UnicodeDecodeError, w')
  end.

(** [if s:] on a string. *)
Definition truthy (s : string) : bool :=
  match s with
  | EmptyString => false
  | _ => true
  end.

Definition when (b : bool) (m : Eff unit) : Eff unit := if b then m else mret tt.

(** ** [setup_logging] *)

(** A call on the file system under the log. *)
Definition fs_do (c : fs_call) : Eff unit := fun w =>
  match log_fs w c with
  | None => (Val tt, w)
  | Some f => (Exn (fs_exc f), w)
  end.

(** [logger.handlers] is not empty: a log file was opened before. *)
Definition logger_has_handlers : Eff bool := fun w =>
  (Val (match log_day w with Some _ => true | None => false end), w).

(** Lines 31-37: [logging.FileHandler(log_path)] opens the file named after
    [today] at once; the two handlers are then added. *)
Definition add_handlers (today : Z) : Eff unit := fun w =>
  (Val tt, mk_world (clock w) (rng w) (children w) (is_file w)
                    (Some today) (trace w) (log_fs w)).

Definition install_handlers (log_dir : string) (today : Z) : Eff unit :=
  fs_do (OpenLog log_dir today);;
  add_handlers today.

Definition setup_logging (log_dir : string) : Eff unit :=
  fs_do (Makedirs log_dir);;
  today ← date_today;
  has_handlers ← logger_has_handlers;
  if negb has_handlers then install_handlers log_dir today else mret tt.

(** ** [run_deli_signup] *)

Definition run_deli_signup (script_path : string) : Eff Z :=
  logger_info (MsgChildStart script_path);;
  try_except_eff
    (proc ← subprocess_run script_path;
     logger_info (MsgChildExit (returncode proc));;
     when (truthy (stdout proc))
       (logger_info MsgStdoutHeader;; logger_info (MsgText (stdout proc)));;
     when (truthy (stderr proc))
       (logger_warning MsgStderrHeader;; logger_warning (MsgText (stderr proc)));;
     mret (returncode proc))
    (fun e => logger_exception (MsgLaunchFailed e);; mret (-1)).

(** ** [main] *)

Definition SCHEDULE_TIMES : list (Z * Z) := [(9, 30); (14, 0); (19, 0)].
Definition JITTER_MINUTES : Z := 15.

(** A slot key: [(target.date(), target.hour, target.minute // 30)]. *)
Definition schedule_key (target : datetime.t) : Z * Z * Z :=
  (datetime.date target, datetime.hour target, datetime.minute target `div` 30).

(** The two variables of [main] that the loop updates. *)
Record LoopState : Type := mk_state {
  today_executed : gset (Z * Z * Z);
  current_day : Z
}.

(** Lines 112-116: the check for a new day. *)
Definition new_day_check (now : datetime.t) (st : LoopState) : Eff LoopState :=
  if decide (datetime.date now ≠ current_day st) then
    let st' := mk_state ∅ (datetime.date now) in
    logger_info (MsgNewDay (current_day st'));;
    mret st'
  else mret st.

(** Lines 125-130: poll the clock, sleeping at most a minute at a time.
    [remaining <= 0] is [target <= now]. *)
Fixpoint wait_until (fuel : nat) (target : datetime.t) : Eff unit :=
  match fuel with
  | O => fun w => (OutOfFuel, w)
  | S fuel' =>
      now ← datetime_now;
      let remaining := datetime.sub_us target now in
      if remaining <=? 0 then mret tt
      else time_sleep (Z.min 60000000 remaining);; wait_until fuel' target
  end.

(** How one round of the [while True] ends: with [continue] or by falling
    through ([Next]), or with [return rc] ([Stop]). *)
Inductive loop_ctl : Type :=
  | Next (st : LoopState)
  | Stop (rc : Z).

(** Lines 132-150: the duplicate check and the dispatch. *)
Definition check_and_dispatch (once : bool) (deli_path : string)
    (target : datetime.t) (st : LoopState) : Eff loop_ctl :=
  let key := schedule_key target in
  if decide (key ∈ today_executed st) then
    logger_warning (MsgSkip target);;
    mret (Next st)
  else
    logger_info (MsgDispatch target);;
    rc ← run_deli_signup deli_path;
    let st' := mk_state ({[key]} ∪ today_executed st) (current_day st) in
    logger_info (MsgExecutedCount (size (today_executed st')));;
    if once then
      logger_info MsgOnceExit;;
      mret (Stop rc)
    else
      logger_info MsgWaitNext;;
      mret (Next st').

(** Lines 110-150: one round of the main loop. *)
Definition iteration (once : bool) (deli_path : string) (fuel : nat)
    (st : LoopState) : Eff loop_ctl :=
  now ← datetime_now;
  st ← new_day_check now st;
  target ← with_rng (get_next_schedule_time now SCHEDULE_TIMES JITTER_MINUTES);
  let wait_us := datetime.sub_us target now in
  logger_info (MsgNextRun target wait_us);;
  wait_until fuel target;;
  check_and_dispatch once deli_path target st.

(** Line 109: [while True], for at most [fuel] rounds. *)
Fixpoint main_loop (once : bool) (deli_path : string) (fuel : nat)
    (st : LoopState) : Eff Z :=
  match fuel with
  | O => fun w => (OutOfFuel, w)
  | S fuel' =>
      ctl ← iteration once deli_path fuel st;
      match ctl with
      | Next st' => main_loop once deli_path fuel' st'
      | Stop rc => mret rc
      end
  end.

(** [main]: [once] is the parsed [--once] flag, [here] the directory of the
    script. *)
Definition main (once : bool) (here : string) (fuel : nat) : Eff Z :=
  let deli_path := os_path_join here "deliSignup.py" in
  setup_logging (os_path_join here "log");;
  logger_info MsgSchedulerStart;;
  found ← os_path_isfile deli_path;
  if negb found then
    logger_error (MsgScriptMissing deli_path);;
    mret 2
  else
    current_day ← date_today;
    main_loop once deli_path fuel (mk_state ∅ current_day).

(** ** [send_email] *)

(** A Python [str]: its code points.  Unlike a string of bytes it can hold
    a lone surrogate (U+D800 to U+DFFF), which UTF-8 does not encode. *)
Definition pystr : Type := list N.

(** The [str] of an ASCII literal. *)
Definition text (s : string) : pystr := map Ascii.N_of_ascii (String.list_ascii_of_string s).

Definition is_surrogate (c : N) : bool := ((55296 <=? c) && (c <=? 57343))%N.

(** [s.encode("utf-8")] does not raise. *)
Definition utf8_encodable (s : pystr) : bool :=
  forallb (fun c => negb (is_surrogate c)) s.

(** How a step of the SMTP session can fail. *)
Inductive smtp_failure : Type :=
  | ConnectionRefused
  | TimedOut
  | ServerDisconnected
  | OtherOSFailure
  | TlsNotSupported
  | TlsHandshakeFailed
  | AuthenticationFailed
  | SenderRefused
  | RecipientsRefused
  | DataRefused
  | OtherSmtpError.

Definition smtp_exc (f : smtp_failure) : exc_class :=
  match f with
  | ConnectionRefused => ConnectionRefusedError
  | TimedOut => TimeoutError
  | ServerDisconnected => SMTPServerDisconnected
  | OtherOSFailure => OSError
  | TlsNotSupported => SMTPNotSupportedError
  | TlsHandshakeFailed => SSLError
  | AuthenticationFailed => SMTPAuthenticationError
  | SenderRefused => SMTPSenderRefused
  | RecipientsRefused => SMTPRecipientsRefused
  | DataRefused => SMTPDataError
  | OtherSmtpError => SMTPException
  end.

(** The [MIMEText] message with its three headers. *)
Record MIMEText : Type := mk_msg {
  msg_payload : pystr;
  msg_From : pystr;
  msg_To : pystr;
  msg_Subject : pystr
}.

(** Lines 23-26: [MIMEText(content, "plain", "utf-8")] encodes the content
    as UTF-8 at once and raises when it cannot; the three [Header] values
    are stored as they are. *)
Definition build_message (subject content sender_email receiver_email : pystr)
  : result MIMEText :=
  if utf8_encodable content
  then Ok (mk_msg content sender_email receiver_email subject)
  else Raise UnicodeEncodeError.

(** The calls made on the SMTP connection, in the order of the source. *)
Inductive smtp_call : Type :=
  | SMTP_connect (smtp_server : pystr) (smtp_port : Z)     (* line 30 *)
  | SMTP_starttls                                          (* line 31 *)
  | SMTP_login (user password : pystr)                     (* line 32 *)
  | SMTP_sendmail (from_addr : pystr) (to_addrs : list pystr)
                  (msg : MIMEText)                         (* line 33 *)
  | SMTP_quit.                                             (* line 34 *)

(** The network and the server: [None] when the call goes through. *)
Definition smtp_peer : Type := smtp_call → option smtp_failure.

Definition smtp_do (peer : smtp_peer) (c : smtp_call) : result unit :=
  match peer c with
  | None => Ok tt
  | Some f => Raise (smtp_exc f)
  end.

(** How [msg.as_string()] can fail: a header that folds to a line break
    without following white space, a header that holds another header, a
    header that cannot be encoded. *)
Inductive serialise_failure : Type :=
  | BareNewlineInHeader
  | EmbeddedHeader
  | HeaderNotEncodable.

Definition serialise_exc (f : serialise_failure) : exc_class :=
  match f with
  | BareNewlineInHeader => HeaderWriteError
  | EmbeddedHeader => HeaderParseError
  | HeaderNotEncodable => UnicodeEncodeError
  end.

(** How [print] can fail on the standard output. *)
Inductive print_failure : Type :=
  | StdoutBrokenPipe
  | StdoutCannotEncode
  | StdoutClosed.

Definition print_exc (f : print_failure) : exc_class :=
  match f with
  | StdoutBrokenPipe => BrokenPipeError
  | StdoutCannotEncode => UnicodeEncodeError
  | StdoutClosed => ValueError
  end.

(** What [print] was given. *)
Inductive printed : Type :=
  | PrintSent                       (* line 35 *)
  | PrintFailed (e : exc_class).    (* line 38 *)

(** What [send_email] runs in: the SMTP peer, the [email] library's
    serialiser (its folding of headers is not part of this repository) and
    the standard output. *)
Record mail_env : Type := mk_env {
  peer : smtp_peer;
  as_string_fails : MIMEText → option serialise_failure;
  print_fails : printed → option print_failure
}.

(** [msg.as_string()], evaluated as an argument of [sendmail]. *)
Definition as_string (env : mail_env) (msg : MIMEText) : result unit :=
  match as_string_fails env msg with
  | None => Ok tt
  | Some f => Raise (serialise_exc f)
  end.

Definition py_print (env : mail_env) (line : printed) : result (list printed) :=
  match print_fails env line with
  | None => Ok [line]
  | Some f => Raise (print_exc f)
  end.

Definition send_email (subject content sender_email sender_password
    receiver_email smtp_server : pystr) (smtp_port : Z) (env : mail_env)
  : result (bool * list printed) :=
  msg ← build_message subject content sender_email receiver_email;
  try_except
    (smtp_do (peer env) (SMTP_connect smtp_server smtp_port);;
     smtp_do (peer env) SMTP_starttls;;
     smtp_do (peer env) (SMTP_login sender_email sender_password);;
     as_string env msg;;
     smtp_do (peer env) (SMTP_sendmail sender_email [receiver_email] msg);;
     smtp_do (peer env) SMTP_quit;;
     out ← py_print env PrintSent;
     Ok (true, out))
    (fun e => out ← py_print env (PrintFailed e); Ok (false, out)).

(** ** Notions used to state the properties *)

(** The instant [s] seconds after midnight of day [d], for every integer
    [s]: what the normalisation of [datetime + timedelta] arrives at. *)
Definition at_second (d s : Z) : datetime.t :=
  datetime.mk (d + s `div` 86400) ((s `mod` 86400) `div` 3600)
              (((s `mod` 86400) `mod` 3600) `div` 60) ((s `mod` 86400) `mod` 60) 0.

(** That instant exists as a [datetime]. *)
Definition representable (d s : Z) : Prop :=
  1 <= d + s `div` 86400 <= datetime.MAXORDINAL.

Definition valid_hm (p : Z * Z) : Prop := 0 <= p.1 <= 23 ∧ 0 <= p.2 <= 59.

(** The generator after [n] more draws. *)
Definition drawn (n : nat) (g : Rng) : Rng := mk_rng (rng_raw g) (rng_pos g + n).

(** The jitter that the next draw of [g] gives for the bound [j]. *)
Definition next_jitter (j : Z) (g : Rng) : Z :=
  - j * 60 + rng_raw g (rng_pos g) `mod` (j * 60 - - j * 60 + 1).

(** No jittered instant of today lies after [now]: the branch that rolls
    over to tomorrow is taken. *)
Definition rollover (now : datetime.t) (schedule_times : list (Z * Z)) (j : Z)
    (g : Rng) : Prop :=
  ∃ ts g1, scheduled_times_loop (datetime.date now) schedule_times j g = Ok (ts, g1)
           ∧ ∀ t, t ∈ ts → datetime.gtb t now = false.

(** The trace without the sleeps of the wait. *)
Definition is_sleep (ev : event) : bool :=
  match ev with
  | Sleep _ => true
  | _ => false
  end.

Definition without_sleeps (tr : list event) : list event :=
  List.filter (fun ev => negb (is_sleep ev)) tr.

(** Two rounds of the loop in a row, not in [--once] mode. *)
Definition two_rounds (deli_path : string) (fuel : nat) (st : LoopState) : Eff loop_ctl :=
  ctl ← iteration false deli_path fuel st;
  match ctl with
  | Next st' => iteration false deli_path fuel st'
  | Stop rc => mret (Stop rc)
  end.

(** What is seen when rounds end with the loop going on: the keys in the
    set and the trace without the sleeps. *)
Definition observed (r : outcome loop_ctl * World)
  : option (list (Z * Z * Z) * list event) :=
  match r with
  | (Val (Next st), w) => Some (elements (today_executed st), without_sleeps (trace w))
  | _ => None
  end.

(** A clock that is read once a minute from 20:00:00 of day [d] on. *)
Definition evening_clock (d : Z) : oracle datetime.t :=
  mk_oracle (fun n => at_second d (72000 + 60 * Z.of_nat n)) 0.

(** Draws that give the jitter 0 under the bound of 15 minutes, but for the
    fifth draw, which gives +600 seconds. *)
Definition late_fifth_draw : Rng :=
  mk_rng (fun n => match n with 4%nat => 1500 | _ => 900 end) 0.

(** The evening of day 738000, the script in place, a child that exits
    with 0 each time. *)
Definition evening_world : World :=
  mk_world (evening_clock 738000) late_fifth_draw
           (mk_oracle (fun _ => Completed (mk_proc 0 "" "")) 0)
           (fun _ => true) (Some 738000) [] (fun _ => None).

(** Five hours later: the clock reads 01:00:00 of day 738001 next. *)
Definition night_world : World :=
  mk_world (mk_oracle (answers (evening_clock 738000)) 300) late_fifth_draw
           (mk_oracle (fun _ => Completed (mk_proc 0 "" "")) 0)
           (fun _ => true) (Some 738000) [] (fun _ => None).

(** The next morning: the clock reads 09:31:00 of day 738001 next, and the
    next draw is the fifth. *)
Definition morning_world : World :=
  mk_world (mk_oracle (answers (evening_clock 738000)) 811)
           (mk_rng (rng_raw late_fifth_draw) 4)
           (mk_oracle (fun _ => Completed (mk_proc 0 "" "")) 1)
           (fun _ => true) (Some 738000) [] (fun _ => None).

(** The same evening, but the first child cannot be launched. *)
Definition evening_world_no_launch : World :=
  mk_world (evening_clock 738000) late_fifth_draw
           (mk_oracle (fun n => match n with
                                | O => NotLaunched NoSuchFile
                                | _ => Completed (mk_proc 0 "" "")
                                end) 0)
           (fun _ => true) (Some 738000) [] (fun _ => None).

(** The [i]-th reading of the clock from now on. *)
Definition reading (w : World) (i : nat) : datetime.t :=
  answers (clock w) (asked (clock w) + i).

(** The sleeps of a wait for [target] that polls [n] times in vain. *)
Definition sleeps_before (target : datetime.t) (w : World) (n : nat) : list event :=
  map (fun i => Sleep (Z.min 60000000 (datetime.sub_us target (reading w i)))) (seq 0 n).

(** The loop state after the check for a new day at [now]. *)
Definition after_new_day_check (now : datetime.t) (st : LoopState) : LoopState :=
  if decide (datetime.date now ≠ current_day st)
  then mk_state ∅ (datetime.date now) else st.

(** What [run_deli_signup] returns for an outcome of [subprocess.run]. *)
Definition exit_code (o : run_outcome) : Z :=
  match o with
  | Completed proc => returncode proc
  | NotLaunched _ => -1
  | Undecodable _ => -1
  end.

(** [m] keeps the relation [R] between the world before and the world
    after, however it ends. *)
Definition keeps {A : Type} (R : World → World → Prop) (m : Eff A) : Prop :=
  ∀ w, R w (snd (m w)).

Definition same_log_day (w w' : World) : Prop := log_day w' = log_day w.

(** What each step inside the [try] of [send_email] raises, if anything, in
    the order of the source: the connection, the TLS upgrade, the login,
    [msg.as_string()], the submission, the closing and the [print]. *)
Definition session_failures (subject content sender_email sender_password
    receiver_email smtp_server : pystr) (smtp_port : Z) (env : mail_env)
  : list (option exc_class) :=
  let msg := mk_msg content sender_email receiver_email subject in
  [smtp_exc <$> peer env (SMTP_connect smtp_server smtp_port);
   smtp_exc <$> peer env SMTP_starttls;
   smtp_exc <$> peer env (SMTP_login sender_email sender_password);
   serialise_exc <$> as_string_fails env msg;
   smtp_exc <$> peer env (SMTP_sendmail sender_email [receiver_email] msg);
   smtp_exc <$> peer env SMTP_quit;
   print_exc <$> print_fails env PrintSent].

(** A server that refuses the login; the serialiser and the standard output
    refuse nothing. *)
Definition login_refusing_env : mail_env :=
  mk_env (fun c => match c with
                   | SMTP_login _ _ => Some AuthenticationFailed
                   | _ => None
                   end) (fun _ => None) (fun _ => None).

(** A peer, a serialiser and a standard output that refuse nothing. *)
Definition willing_env : mail_env :=
  mk_env (fun _ => None) (fun _ => None) (fun _ => None).


(** * Properties *)

(** ** The order of instants *)

Section Order.

Import datetime.

Lemma tuple_compare_refl (a : list Z) : tuple_compare a a = Eq.
Proof.
  induction a as [|x a IH]; simpl; [done|].
  by rewrite Z.compare_refl.
Qed.

Lemma tuple_compare_eq (a b : list Z) : tuple_compare a b = Eq → a = b.
Proof.
  revert b; induction a as [|x a IH]; intros [|y b]; simpl; try done.
  destruct (Z.compare_spec x y) as [->| |]; try done.
  intros H. by rewrite (IH b H).
Qed.

Lemma tuple_compare_antisym (a b : list Z) :
  tuple_compare b a = CompOpp (tuple_compare a b).
Proof.
  revert b; induction a as [|x a IH]; intros [|y b]; simpl; try done.
  rewrite (Z.compare_antisym x y).
  destruct (x ?= y); simpl; auto.
Qed.

Lemma tuple_compare_lt_trans (a b c : list Z) :
  tuple_compare a b = Lt → tuple_compare b c = Lt → tuple_compare a c = Lt.
Proof.
  revert b c; induction a as [|x a IH]; intros [|y b] [|z c]; simpl; try done.
  destruct (Z.compare_spec x y) as [->| Hxy | Hxy]; try done.
  - destruct (Z.compare_spec y z); try done. apply IH.
  - intros _. destruct (Z.compare_spec y z) as [->| Hyz | Hyz]; try done.
    + intros _. by rewrite (proj2 (Z.compare_lt_iff x z) Hxy).
    + intros _. rewrite (proj2 (Z.compare_lt_iff x z)); [done | lia].
Qed.

Lemma ltb_irrefl (x : t) : ltb x x = false.
Proof. unfold ltb, compare. by rewrite tuple_compare_refl. Qed.

Lemma ltb_trans (x y z : t) : ltb x y = true → ltb y z = true → ltb x z = true.
Proof.
  unfold ltb, compare. intros Hxy Hyz.
  rewrite (tuple_compare_lt_trans (fields x) (fields y) (fields z)); [done | |].
  - by destruct (tuple_compare (fields x) (fields y)).
  - by destruct (tuple_compare (fields y) (fields z)).
Qed.

Lemma fields_inj (x y : t) : fields x = fields y → x = y.
Proof. destruct x, y; unfold fields; simpl. by intros [= -> -> -> -> ->]. Qed.

(** The order is total: of two different instants one is the earlier. *)
Lemma ltb_total (x y : t) : ltb x y = false → ltb y x = false → x = y.
Proof.
  unfold ltb, compare. rewrite (tuple_compare_antisym (fields x) (fields y)).
  destruct (tuple_compare (fields x) (fields y)) eqn:E; simpl; try done.
  intros _ _. by apply fields_inj, tuple_compare_eq.
Qed.

Lemma leb_trans (x y z : t) : leb x y = true → leb y z = true → leb x z = true.
Proof.
  unfold leb. rewrite !negb_true_iff. intros Hyx Hzy.
  destruct (ltb z x) eqn:Hzx; [|done].
  destruct (ltb x y) eqn:Hxy.
  - by rewrite (ltb_trans z x y Hzx Hxy) in Hzy.
  - rewrite (ltb_total x y Hxy Hyx) in Hzx. congruence.
Qed.

(** An instant of a later day is later. *)
Lemma ltb_of_date (x y : t) : date x < date y → ltb x y = true.
Proof.
  intros H. unfold ltb, compare, fields; simpl.
  by rewrite (proj2 (Z.compare_lt_iff _ _) H).
Qed.

End Order.

(** ** [min] *)

Lemma py_min_cons (x y : datetime.t) (l : list datetime.t) :
  py_min x (y :: l) = py_min (if datetime.ltb y x then y else x) l.
Proof. reflexivity. Qed.

Lemma py_min_elem (l : list datetime.t) (x : datetime.t) : py_min x l ∈ x :: l.
Proof.
  revert x; induction l as [|y l IH]; intros x.
  - apply list_elem_of_here.
  - rewrite py_min_cons.
    specialize (IH (if datetime.ltb y x then y else x)).
    destruct (datetime.ltb y x).
    + by apply list_elem_of_further.
    + apply elem_of_cons in IH as [->|IH]; [apply list_elem_of_here|].
      by do 2 apply list_elem_of_further.
Qed.

Lemma py_min_below_start (l : list datetime.t) (x : datetime.t) :
  datetime.leb (py_min x l) x = true.
Proof.
  revert x; induction l as [|y l IH]; intros x.
  - unfold py_min, datetime.leb; simpl. by rewrite ltb_irrefl.
  - rewrite py_min_cons.
    destruct (datetime.ltb y x) eqn:E.
    + eapply leb_trans; [apply IH|].
      unfold datetime.leb. destruct (datetime.ltb x y) eqn:E'; [|done].
      pose proof (ltb_trans _ _ _ E E') as H. by rewrite ltb_irrefl in H.
    + apply IH.
Qed.

Lemma py_min_least (l : list datetime.t) (x y : datetime.t) :
  y ∈ x :: l → datetime.leb (py_min x l) y = true.
Proof.
  revert x; induction l as [|z l IH]; intros x Hy.
  - apply list_elem_of_singleton in Hy as ->. apply py_min_below_start.
  - apply elem_of_cons in Hy as [->|Hy]; [apply py_min_below_start|].
    rewrite py_min_cons.
    apply elem_of_cons in Hy as [->|Hy].
    + destruct (datetime.ltb z x) eqn:E.
      * apply py_min_below_start.
      * eapply leb_trans; [apply py_min_below_start|].
        unfold datetime.leb. by rewrite E.
    + apply IH. by apply list_elem_of_further.
Qed.

(** ** Arithmetic of instants *)

Lemma bind_Ok {A B : Type} (a : A) (f : A → result B) : (Ok a ≫= f) = f a.
Proof. reflexivity. Qed.

Lemma bind_Raise {A B : Type} (e : exc_class) (f : A → result B) :
  (Raise e ≫= f) = Raise e.
Proof. reflexivity. Qed.

Lemma time_new_valid (h m : Z) :
  valid_hm (h, m) → datetime.time_new h m = Ok (datetime.mk_time h m).
Proof.
  intros [Hh Hm]; simpl in *. unfold datetime.time_new, datetime.fits_c_int.
  replace ((-2147483648 <=? h) && (h <=? 2147483647)) with true
    by (symmetry; apply andb_true_iff; lia).
  replace ((-2147483648 <=? m) && (m <=? 2147483647)) with true
    by (symmetry; apply andb_true_iff; lia).
  replace ((0 <=? h) && (h <=? 23)) with true by (symmetry; apply andb_true_iff; lia).
  replace ((0 <=? m) && (m <=? 59)) with true by (symmetry; apply andb_true_iff; lia).
  done.
Qed.

Lemma time_new_inv (h m : Z) (tm : datetime.time) :
  datetime.time_new h m = Ok tm → valid_hm (h, m) ∧ tm = datetime.mk_time h m.
Proof.
  unfold datetime.time_new, valid_hm; simpl.
  destruct (datetime.fits_c_int h); simpl; [|done].
  destruct (datetime.fits_c_int m); simpl; [|done].
  destruct ((0 <=? h) && (h <=? 23)) eqn:Eh; simpl; [|done].
  destruct ((0 <=? m) && (m <=? 59)) eqn:Em; simpl; [|done].
  apply andb_true_iff in Eh, Em. intros [= <-]. split; [lia | done].
Qed.

Lemma randint_jitter (j : Z) (g : Rng) :
  0 <= j →
  randint (- j * 60) (j * 60) g = Ok (next_jitter j g, drawn 1 g) ∧
  - j * 60 <= next_jitter j g <= j * 60.
Proof.
  intros Hj. unfold randint, next_jitter, drawn.
  replace (j * 60 <? - j * 60) with false by (symmetry; apply Z.ltb_ge; lia).
  split.
  - do 3 f_equal. lia.
  - pose proof (Z.mod_pos_bound (rng_raw g (rng_pos g)) (j * 60 - - j * 60 + 1)).
    lia.
Qed.

Lemma randint_inv (a b x : Z) (g g' : Rng) :
  randint a b g = Ok (x, g') → a <= b ∧ a <= x <= b ∧ g' = drawn 1 g.
Proof.
  unfold randint, drawn. destruct (b <? a) eqn:E; [done|].
  apply Z.ltb_ge in E. intros [= <- <-].
  pose proof (Z.mod_pos_bound (rng_raw g (rng_pos g)) (b - a + 1)).
  repeat split; [lia | lia | lia | f_equal; lia].
Qed.

(** [base_time + timedelta(seconds=js)] for a base time at [h]:[m] of day
    [d] is the instant [h*3600 + m*60 + js] seconds after that midnight,
    whenever that instant is representable. *)
Lemma add_jitter (d h m js : Z) :
  valid_hm (h, m) → 1 <= d <= datetime.MAXORDINAL →
  representable d (h * 3600 + m * 60 + js) →
  (td ← datetime.timedelta_seconds js;
   datetime.add (datetime.combine d (datetime.mk_time h m)) td)
  = Ok (at_second d (h * 3600 + m * 60 + js)).
Proof.
  intros [Hh Hm] Hd Hrep; simpl in *.
  unfold representable, datetime.MAXORDINAL in *.
  unfold datetime.timedelta_seconds, datetime.MAX_DELTA_DAYS.
  assert (Hq : (h * 3600 + m * 60 + js) `div` 86400
               = js `div` 86400 + (h * 3600 + m * 60 + js `mod` 86400) `div` 86400).
  { rewrite <- Z.div_add_l by lia. f_equal.
    pose proof (Z.div_mod js 86400). lia. }
  assert (Hr : (h * 3600 + m * 60 + js) `mod` 86400
               = (h * 3600 + m * 60 + js `mod` 86400) `mod` 86400).
  { rewrite (Z.add_mod_idemp_r (h * 3600 + m * 60) js 86400) by lia. done. }
  pose proof (Z.mod_pos_bound js 86400 ltac:(lia)) as Hjm.
  assert (0 <= (h * 3600 + m * 60 + js `mod` 86400) `div` 86400 <= 1) as Hc.
  { split; [apply Z.div_pos; lia|].
    apply Z.lt_succ_r, Z.div_lt_upper_bound; lia. }
  replace (Z.abs (js `div` 86400) >? 999999999) with false
    by (symmetry; rewrite Z.gtb_ltb; apply Z.ltb_ge; lia).
  unfold mbind, result_bind, datetime.add, datetime.MAXORDINAL, datetime.combine; simpl.
  replace (h * 3600 + m * 60 + 0 + js `mod` 86400 + (0 + 0) `div` 1000000)
    with (h * 3600 + m * 60 + js `mod` 86400)
    by (change ((0 + 0) `div` 1000000) with 0; lia).
  change ((0 + 0) `mod` 1000000) with 0.
  replace ((0 <? d + js `div` 86400 + (h * 3600 + m * 60 + js `mod` 86400) `div` 86400)
           && (d + js `div` 86400 + (h * 3600 + m * 60 + js `mod` 86400) `div` 86400
               <=? 3652059)) with true
    by (symmetry; apply andb_true_iff; lia).
  unfold at_second. rewrite Hq, Hr. f_equal. f_equal. lia.
Qed.

Lemma at_second_same_day (d s : Z) :
  0 <= s < 86400 → datetime.date (at_second d s) = d.
Proof.
  intros Hs. unfold at_second; simpl. rewrite Z.div_small by lia. lia.
Qed.

Lemma at_second_valid (d s : Z) :
  representable d s → datetime.valid (at_second d s).
Proof.
  unfold representable, datetime.valid, at_second; simpl. intros Hd.
  pose proof (Z.mod_pos_bound s 86400 ltac:(lia)).
  pose proof (Z.mod_pos_bound (s `mod` 86400) 3600 ltac:(lia)).
  pose proof (Z.mod_pos_bound (s `mod` 86400) 60 ltac:(lia)).
  repeat split; try lia.
  - apply Z.div_pos; lia.
  - apply Z.lt_succ_r, Z.div_lt_upper_bound; lia.
  - apply Z.div_pos; lia.
  - apply Z.lt_succ_r, Z.div_lt_upper_bound; lia.
Qed.

(** ** Today's instants *)

(** With valid base times, a jitter of less than a day and a day that is
    neither the first nor the last one, the [for] loop yields an instant
    for every base time and draws once for each. *)
Lemma scheduled_times_loop_total (today : Z) (schedule_times : list (Z * Z))
    (j : Z) (g : Rng) :
  Forall valid_hm schedule_times → 0 <= j → j * 60 < 86400 →
  2 <= today < datetime.MAXORDINAL →
  ∃ ts, scheduled_times_loop today schedule_times j g
        = Ok (ts, drawn (length schedule_times) g).
Proof.
  intros Hv Hj Hj' Hd. revert g.
  induction Hv as [|[h m] rest Hhm Hrest IH]; intros g.
  - exists []. simpl. unfold drawn. destruct g; simpl. do 3 f_equal. lia.
  - simpl. rewrite (time_new_valid h m Hhm).
    destruct (randint_jitter j g Hj) as [-> Hjs].
    unfold mbind at 1 2, result_bind at 1 2.
    pose proof Hhm as [Hh Hm]; simpl in Hh, Hm.
    assert (Hrep : representable today (h * 3600 + m * 60 + next_jitter j g)).
    { unfold representable, datetime.MAXORDINAL in *.
      assert (-1 <= (h * 3600 + m * 60 + next_jitter j g) `div` 86400 <= 1).
      { split.
        - apply Z.div_le_lower_bound; lia.
        - apply Z.lt_succ_r, Z.div_lt_upper_bound; lia. }
      lia. }
    pose proof (add_jitter today h m (next_jitter j g) Hhm
                  ltac:(unfold datetime.MAXORDINAL in *; lia) Hrep) as Hadd.
    unfold mbind at 1, result_bind at 1 in Hadd.
    destruct (datetime.timedelta_seconds (next_jitter j g)) as [td|e]; [|done].
    unfold mbind at 1 2, result_bind at 1 2. rewrite Hadd.
    destruct (IH (drawn 1 g)) as [ts Hts]. rewrite Hts.
    eexists. unfold mbind, result_bind. do 2 f_equal.
    unfold drawn; simpl. f_equal. lia.
Qed.

(** One round of the [for] loop, when the jittered instant is representable. *)
Lemma scheduled_times_loop_cons (today h m : Z) (rest : list (Z * Z)) (j : Z) (g : Rng) :
  valid_hm (h, m) → 0 <= j → 1 <= today <= datetime.MAXORDINAL →
  representable today (h * 3600 + m * 60 + next_jitter j g) →
  scheduled_times_loop today ((h, m) :: rest) j g
  = ('(others, g') ← scheduled_times_loop today rest j (drawn 1 g);
     Ok (at_second today (h * 3600 + m * 60 + next_jitter j g) :: others, g')).
Proof.
  intros Hhm Hj Hd Hrep. simpl. rewrite (time_new_valid h m Hhm).
  destruct (randint_jitter j g Hj) as [-> _].
  unfold mbind at 1 2, result_bind at 1 2.
  pose proof (add_jitter today h m (next_jitter j g) Hhm Hd Hrep) as Hadd.
  unfold mbind at 1, result_bind at 1 in Hadd.
  destruct (datetime.timedelta_seconds (next_jitter j g)) as [td|e]; [|done].
  unfold mbind at 1 2, result_bind at 1 2. by rewrite Hadd.
Qed.

(** What the loop having run to its end says of a non-empty schedule. *)
Lemma scheduled_times_loop_inv (today h m : Z) (rest : list (Z * Z)) (j : Z)
    (g g1 : Rng) (ts : list datetime.t) :
  scheduled_times_loop today ((h, m) :: rest) j g = Ok (ts, g1) →
  valid_hm (h, m) ∧ 0 <= j.
Proof.
  simpl. destruct (datetime.time_new h m) as [tm|e] eqn:Etm; [|done].
  apply time_new_inv in Etm as [Hhm _]. rewrite bind_Ok.
  destruct (randint (- j * 60) (j * 60) g) as [[js g']|e] eqn:Er; [|done].
  apply randint_inv in Er as (Hab & _ & _). intros _. split; [done | lia].
Qed.

Lemma filter_future_nil (now : datetime.t) (ts : list datetime.t) :
  (∀ t, t ∈ ts → datetime.gtb t now = false) →
  filter (fun t => datetime.gtb t now = true) ts = [].
Proof.
  intros H. induction ts as [|t ts IH]; [done|].
  rewrite filter_cons. rewrite (H t) by apply list_elem_of_here.
  destruct (decide (false = true)); [done|].
  apply IH. intros t' Ht'. by apply H, list_elem_of_further.
Qed.

(** The branch taken when today is over. *)
Lemma get_next_schedule_time_rollover_eq (now : datetime.t) (h0 m0 : Z)
    (rest : list (Z * Z)) (j : Z) (g g1 : Rng) (ts : list datetime.t) :
  1 <= datetime.date now < datetime.MAXORDINAL →
  scheduled_times_loop (datetime.date now) ((h0, m0) :: rest) j g = Ok (ts, g1) →
  (∀ t, t ∈ ts → datetime.gtb t now = false) →
  representable (datetime.date now + 1) (h0 * 3600 + m0 * 60 + next_jitter j g1) →
  get_next_schedule_time now ((h0, m0) :: rest) j g
  = Ok (at_second (datetime.date now + 1) (h0 * 3600 + m0 * 60 + next_jitter j g1),
        drawn 1 g1).
Proof.
  intros Hd Hloop Hnone Hrep.
  destruct (scheduled_times_loop_inv _ _ _ _ _ _ _ _ Hloop) as [Hhm Hj].
  unfold get_next_schedule_time. rewrite Hloop, bind_Ok.
  rewrite (filter_future_nil now ts Hnone).
  change (datetime.timedelta_days 1) with (Ok (datetime.mk_td 1 0 0)).
  rewrite bind_Ok. unfold datetime.date_add; simpl datetime.days.
  replace ((0 <? datetime.date now + 1) && (datetime.date now + 1 <=? datetime.MAXORDINAL))
    with true by (symmetry; apply andb_true_iff; lia).
  rewrite bind_Ok. simpl first_of. rewrite bind_Ok. simpl fst; simpl snd.
  rewrite (time_new_valid h0 m0 Hhm), bind_Ok.
  destruct (randint_jitter j g1 Hj) as [-> _]. rewrite bind_Ok.
  pose proof (add_jitter (datetime.date now + 1) h0 m0 (next_jitter j g1) Hhm
                ltac:(lia) Hrep) as Hadd.
  destruct (datetime.timedelta_seconds (next_jitter j g1)) as [td|e]; [|done].
  rewrite bind_Ok in Hadd. by rewrite bind_Ok, Hadd, bind_Ok.
Qed.

(** The branch taken while an instant of today is still ahead. *)
Lemma get_next_schedule_time_today_eq (now : datetime.t) (schedule_times : list (Z * Z))
    (j : Z) (g g1 : Rng) (ts : list datetime.t) (t : datetime.t) (l : list datetime.t) :
  scheduled_times_loop (datetime.date now) schedule_times j g = Ok (ts, g1) →
  filter (fun t => datetime.gtb t now = true) ts = t :: l →
  get_next_schedule_time now schedule_times j g = Ok (py_min t l, g1).
Proof.
  intros Hloop Hf. unfold get_next_schedule_time. by rewrite Hloop, bind_Ok, Hf.
Qed.

(** ** The next fire time *)

(** C1, as amended.  For a non-empty schedule of valid base times, a
    non-negative jitter bound whose window around the first base time stays
    within that base time's calendar day, and [now] on neither the first nor
    the last representable date, [get_next_schedule_time] returns an instant
    strictly after [now]; when it takes the rollover branch, the instant is
    on the date following [now]'s date. *)
Theorem get_next_schedule_time_after_now (now : datetime.t) (h0 m0 : Z)
    (rest : list (Z * Z)) (j : Z) (g : Rng) :
  2 <= datetime.date now < datetime.MAXORDINAL →
  Forall valid_hm ((h0, m0) :: rest) →
  0 <= j →
  j * 60 <= h0 * 3600 + m0 * 60 →
  h0 * 3600 + m0 * 60 + j * 60 < 86400 →
  ∃ r g', get_next_schedule_time now ((h0, m0) :: rest) j g = Ok (r, g') ∧
          datetime.ltb now r = true ∧
          (rollover now ((h0, m0) :: rest) j g →
           datetime.date r = datetime.date now + 1).
Proof.
  intros Hd Hv Hj Hlo Hhi.
  assert (Hhm : valid_hm (h0, m0)) by (by inversion Hv).
  pose proof Hhm as [Hh Hm]; simpl in Hh, Hm.
  destruct (scheduled_times_loop_total (datetime.date now) ((h0, m0) :: rest) j g
              Hv Hj ltac:(lia) Hd) as [ts Hloop].
  destruct (filter (fun t => datetime.gtb t now = true) ts) as [|t l] eqn:Hf.
  - (* today is over *)
    set (g1 := drawn (length ((h0, m0) :: rest)) g) in *.
    destruct (randint_jitter j g1 Hj) as [_ Hjs].
    assert (Hin : 0 <= h0 * 3600 + m0 * 60 + next_jitter j g1 < 86400) by lia.
    assert (Hrep : representable (datetime.date now + 1)
                     (h0 * 3600 + m0 * 60 + next_jitter j g1)).
    { unfold representable. rewrite Z.div_small by lia. lia. }
    assert (Hnone : ∀ t, t ∈ ts → datetime.gtb t now = false).
    { intros t Ht. destruct (datetime.gtb t now) eqn:E; [|done].
      assert (t ∈ filter (fun t => datetime.gtb t now = true) ts) as Hin'
        by (apply list_elem_of_filter; done).
      rewrite Hf in Hin'. by apply elem_of_nil in Hin'. }
    eexists _, _. split.
    { apply (get_next_schedule_time_rollover_eq now h0 m0 rest j g g1 ts);
        [lia | done | done | done]. }
    assert (Hdate := at_second_same_day (datetime.date now + 1) _ Hin).
    split; [apply ltb_of_date; lia | done].
  - (* an instant of today is still ahead *)
    exists (py_min t l), (drawn (length ((h0, m0) :: rest)) g).
    split; [by apply (get_next_schedule_time_today_eq now _ j g _ ts)|].
    assert (Hmin : py_min t l ∈ filter (fun t => datetime.gtb t now = true) ts)
      by (rewrite Hf; apply py_min_elem).
    apply list_elem_of_filter in Hmin as [Hgt _].
    split; [exact Hgt|].
    intros (ts' & g1' & Hloop' & Hnone).
    rewrite Hloop in Hloop'. injection Hloop' as <- <-.
    rewrite (filter_future_nil now ts Hnone) in Hf. done.
Qed.

(** The scheduler's own configuration, at 20:00 of day 738000. *)
Lemma get_next_schedule_time_after_now_witness :
  ∃ r g', get_next_schedule_time (datetime.mk 738000 20 0 0 0)
            ((9, 30) :: [(14, 0); (19, 0)]) 15 (mk_rng (fun _ => 0) 0) = Ok (r, g') ∧
          datetime.ltb (datetime.mk 738000 20 0 0 0) r = true ∧
          (rollover (datetime.mk 738000 20 0 0 0) ((9, 30) :: [(14, 0); (19, 0)]) 15
             (mk_rng (fun _ => 0) 0) →
           datetime.date r = datetime.date (datetime.mk 738000 20 0 0 0) + 1).
Proof.
  apply (get_next_schedule_time_after_now (datetime.mk 738000 20 0 0 0) 9 30
           [(14, 0); (19, 0)] 15 (mk_rng (fun _ => 0) 0)).
  - unfold datetime.MAXORDINAL; simpl; lia.
  - repeat constructor; simpl; lia.
  - lia.
  - lia.
  - lia.
Defined.

(** C1 as stated fails: with the base time 00:05, a bound of 15 minutes and
    [now] = 23:55:00 of day 100, the rollover branch is taken and, for the
    draw that gives the jitter -900 s, the result is 23:50:00 of day 100:
    not after [now], and not on day 101. *)
Lemma get_next_schedule_time_after_now_counterexample :
  valid_hm (0, 5) ∧ datetime.valid (datetime.mk 100 23 55 0 0) ∧
  rollover (datetime.mk 100 23 55 0 0) [(0, 5)] 15 (mk_rng (fun _ => 0) 0) ∧
  ∃ r g', get_next_schedule_time (datetime.mk 100 23 55 0 0) [(0, 5)] 15
            (mk_rng (fun _ => 0) 0) = Ok (r, g') ∧
          r = datetime.mk 100 23 50 0 0 ∧
          datetime.ltb (datetime.mk 100 23 55 0 0) r = false ∧
          datetime.date r ≠ datetime.date (datetime.mk 100 23 55 0 0) + 1.
Proof.
  repeat split; try (unfold datetime.MAXORDINAL; simpl; lia).
  - exists [datetime.mk 99 23 50 0 0], (mk_rng (fun _ => 0) 1).
    split; [reflexivity|].
    intros t Ht. apply list_elem_of_singleton in Ht as ->. reflexivity.
  - exists (datetime.mk 100 23 50 0 0), (mk_rng (fun _ => 0) 2).
    split; [reflexivity|]. split; [reflexivity|]. split; [reflexivity|].
    simpl; lia.
Qed.

(** The loop draws once for every base time and keeps their order. *)
Lemma scheduled_times_loop_draws (today : Z) (schedule_times : list (Z * Z)) (j : Z)
    (g g1 : Rng) (ts : list datetime.t) :
  scheduled_times_loop today schedule_times j g = Ok (ts, g1) →
  g1 = drawn (length schedule_times) g ∧ length ts = length schedule_times.
Proof.
  revert g g1 ts. induction schedule_times as [|[h m] rest IH]; intros g g1 ts; simpl.
  - intros [= <- <-]. split; [|done]. unfold drawn. destruct g; simpl. f_equal. lia.
  - destruct (datetime.time_new h m) as [tm|e]; [rewrite bind_Ok|done].
    destruct (randint (- j * 60) (j * 60) g) as [[js g']|e] eqn:Er;
      [rewrite bind_Ok|done].
    apply randint_inv in Er as (_ & _ & ->).
    destruct (datetime.timedelta_seconds js) as [td|e]; [rewrite bind_Ok|done].
    destruct (datetime.add (datetime.combine today tm) td) as [x|e];
      [rewrite bind_Ok|done].
    destruct (scheduled_times_loop today rest j (drawn 1 g)) as [[others g2]|e] eqn:El;
      [rewrite bind_Ok|done].
    apply IH in El as [-> Hlen]. intros [= <- <-]. split; [|simpl; lia].
    unfold drawn; simpl. f_equal. lia.
Qed.

Lemma next_jitter_zero (g : Rng) : next_jitter 0 g = 0.
Proof. unfold next_jitter. simpl. apply Z.mod_1_r. Qed.

(** With no jitter the instant of a base time is that base time. *)
Lemma at_second_hm (d h m : Z) :
  valid_hm (h, m) → at_second d (h * 3600 + m * 60 + 0) = datetime.mk d h m 0 0.
Proof.
  intros [Hh Hm]; simpl in *. unfold at_second.
  f_equal; Z.div_mod_to_equations; lia.
Qed.

Lemma ltb_same_date (d h1 m1 s1 u1 h2 m2 s2 u2 : Z) :
  datetime.ltb (datetime.mk d h1 m1 s1 u1) (datetime.mk d h2 m2 s2 u2)
  = match datetime.tuple_compare [h1; m1; s1; u1] [h2; m2; s2; u2] with
    | Lt => true
    | _ => false
    end.
Proof.
  unfold datetime.ltb, datetime.compare, datetime.fields.
  cbn [datetime.tuple_compare datetime.date datetime.hour datetime.minute
       datetime.second datetime.microsecond].
  by rewrite Z.compare_refl.
Qed.

(** C5.  Whenever at least one of today's jittered instants lies strictly
    after [now], [get_next_schedule_time] returns the earliest of those:
    one of them, and no other of them is earlier.  With jitter 0, base
    times 09:30 and 14:00 and [now] = 10:00 of day [D], it returns 14:00:00
    of day [D]. *)
Theorem get_next_schedule_time_earliest :
  (∀ (now : datetime.t) (schedule_times : list (Z * Z)) (j : Z) (g g1 : Rng)
     (ts : list datetime.t),
     scheduled_times_loop (datetime.date now) schedule_times j g = Ok (ts, g1) →
     (∃ t, t ∈ ts ∧ datetime.gtb t now = true) →
     ∃ r, get_next_schedule_time now schedule_times j g = Ok (r, g1) ∧
          r ∈ ts ∧ datetime.gtb r now = true ∧
          ∀ t, t ∈ ts → datetime.gtb t now = true → datetime.leb r t = true)
  ∧
  (∀ (D : Z) (g : Rng),
     1 <= D <= datetime.MAXORDINAL →
     get_next_schedule_time (datetime.mk D 10 0 0 0) [(9, 30); (14, 0)] 0 g
     = Ok (datetime.mk D 14 0 0 0, drawn 2 g)).
Proof.
  split.
  - intros now schedule_times j g g1 ts Hloop (t & Ht & Hgt).
    destruct (filter (fun t => datetime.gtb t now = true) ts) as [|t0 l] eqn:Hf.
    { assert (t ∈ filter (fun t => datetime.gtb t now = true) ts) as Hin
        by (apply list_elem_of_filter; done).
      rewrite Hf in Hin. by apply elem_of_nil in Hin. }
    exists (py_min t0 l).
    split; [by apply (get_next_schedule_time_today_eq now _ j g g1 ts)|].
    assert (Hmin : py_min t0 l ∈ filter (fun t => datetime.gtb t now = true) ts)
      by (rewrite Hf; apply py_min_elem).
    apply list_elem_of_filter in Hmin as [Hgt' Hin'].
    split; [done|]. split; [done|].
    intros t' Ht' Hgt''. apply py_min_least. rewrite <- Hf.
    by apply list_elem_of_filter.
  - intros D g HD.
    assert (Hloop : scheduled_times_loop D [(9, 30); (14, 0)] 0 g
                    = Ok ([datetime.mk D 9 30 0 0; datetime.mk D 14 0 0 0], drawn 2 g)).
    { assert (Hrep : ∀ h m, valid_hm (h, m) → representable D (h * 3600 + m * 60 + 0)).
      { intros h m [Hh Hm]; simpl in *. unfold representable.
        rewrite Z.div_small by lia. lia. }
      assert (H1 : valid_hm (9, 30)) by (split; simpl; lia).
      assert (H2 : valid_hm (14, 0)) by (split; simpl; lia).
      rewrite (scheduled_times_loop_cons D 9 30 _ 0 g H1 ltac:(lia) HD)
        by (rewrite next_jitter_zero; by apply Hrep).
      rewrite (scheduled_times_loop_cons D 14 0 _ 0 (drawn 1 g) H2 ltac:(lia) HD)
        by (rewrite next_jitter_zero; by apply Hrep).
      rewrite !next_jitter_zero, (at_second_hm D 9 30 H1), (at_second_hm D 14 0 H2).
      simpl scheduled_times_loop. rewrite !bind_Ok. do 2 f_equal.
      unfold drawn; simpl. f_equal. lia. }
    change D with (datetime.date (datetime.mk D 10 0 0 0)) in Hloop at 1.
    apply (get_next_schedule_time_today_eq (datetime.mk D 10 0 0 0) [(9, 30); (14, 0)] 0
             g (drawn 2 g) _ (datetime.mk D 14 0 0 0) [] Hloop).
    assert (Hpast : datetime.gtb (datetime.mk D 9 30 0 0) (datetime.mk D 10 0 0 0) = false)
      by (unfold datetime.gtb; by rewrite (ltb_same_date D 10 0 0 0 9 30 0 0)).
    assert (Hahead : datetime.gtb (datetime.mk D 14 0 0 0) (datetime.mk D 10 0 0 0) = true)
      by (unfold datetime.gtb; by rewrite (ltb_same_date D 10 0 0 0 14 0 0 0)).
    rewrite filter_cons, Hpast.
    destruct (decide (false = true)); [done|].
    rewrite filter_cons, Hahead.
    destruct (decide (true = true)); [|done]. by rewrite filter_nil.
Qed.

(** The scheduler's own schedule at 10:00 of day 738000, with the jitters
    -900 s, -800 s and -700 s; and example 2 of the specification. *)
Lemma get_next_schedule_time_earliest_witness :
  (∃ r, get_next_schedule_time (datetime.mk 738000 10 0 0 0) SCHEDULE_TIMES 15
          (mk_rng (fun n => Z.of_nat n * 100) 0)
        = Ok (r, mk_rng (fun n => Z.of_nat n * 100) 3) ∧
        r ∈ [datetime.mk 738000 9 15 0 0; datetime.mk 738000 13 46 40 0;
             datetime.mk 738000 18 48 20 0] ∧
        datetime.gtb r (datetime.mk 738000 10 0 0 0) = true ∧
        ∀ t, t ∈ [datetime.mk 738000 9 15 0 0; datetime.mk 738000 13 46 40 0;
                  datetime.mk 738000 18 48 20 0] →
             datetime.gtb t (datetime.mk 738000 10 0 0 0) = true →
             datetime.leb r t = true)
  ∧
  get_next_schedule_time (datetime.mk 738000 10 0 0 0) [(9, 30); (14, 0)] 0
    (mk_rng (fun _ => 0) 0)
  = Ok (datetime.mk 738000 14 0 0 0, drawn 2 (mk_rng (fun _ => 0) 0)).
Proof.
  split.
  - apply (proj1 get_next_schedule_time_earliest (datetime.mk 738000 10 0 0 0)
             SCHEDULE_TIMES 15 (mk_rng (fun n => Z.of_nat n * 100) 0)
             (mk_rng (fun n => Z.of_nat n * 100) 3)).
    + reflexivity.
    + exists (datetime.mk 738000 13 46 40 0). split; [|reflexivity].
      apply list_elem_of_further, list_elem_of_here.
  - apply (proj2 get_next_schedule_time_earliest 738000 (mk_rng (fun _ => 0) 0)).
    unfold datetime.MAXORDINAL. lia.
Defined.

(** C6, as amended.  For a non-empty schedule and [now] before the last
    representable date, whenever none of today's jittered instants lies
    strictly after [now] and tomorrow's jittered instant is representable,
    [get_next_schedule_time] returns the instant of tomorrow's date
    at the first base time of the schedule, moved by a jitter drawn after
    today's draws and within the bound; the other base times play no part.
    With base time 09:30, jitter 0 and [now] = 23:00 of day [D], it returns
    09:30:00 of day [D + 1]. *)
Theorem get_next_schedule_time_tomorrow_first :
  (∀ (now : datetime.t) (h0 m0 : Z) (rest : list (Z * Z)) (j : Z) (g g1 : Rng)
     (ts : list datetime.t),
     1 <= datetime.date now < datetime.MAXORDINAL →
     scheduled_times_loop (datetime.date now) ((h0, m0) :: rest) j g = Ok (ts, g1) →
     (∀ t, t ∈ ts → datetime.gtb t now = false) →
     representable (datetime.date now + 1) (h0 * 3600 + m0 * 60 + next_jitter j g1) →
     g1 = drawn (length ((h0, m0) :: rest)) g ∧
     - j * 60 <= next_jitter j g1 <= j * 60 ∧
     get_next_schedule_time now ((h0, m0) :: rest) j g
     = Ok (at_second (datetime.date now + 1) (h0 * 3600 + m0 * 60 + next_jitter j g1),
           drawn 1 g1))
  ∧
  (∀ (D : Z) (g : Rng),
     1 <= D < datetime.MAXORDINAL →
     get_next_schedule_time (datetime.mk D 23 0 0 0) [(9, 30)] 0 g
     = Ok (datetime.mk (D + 1) 9 30 0 0, drawn 2 g)).
Proof.
  split.
  - intros now h0 m0 rest j g g1 ts Hd Hloop Hnone Hrep.
    destruct (scheduled_times_loop_inv _ _ _ _ _ _ _ _ Hloop) as [Hhm Hj].
    destruct (scheduled_times_loop_draws _ _ _ _ _ _ Hloop) as [Hg1 _].
    split; [done|]. split; [by apply randint_jitter|].
    by apply (get_next_schedule_time_rollover_eq now h0 m0 rest j g g1 ts).
  - intros D g HD.
    assert (H1 : valid_hm (9, 30)) by (split; simpl; lia).
    assert (Hloop : scheduled_times_loop D [(9, 30)] 0 g
                    = Ok ([datetime.mk D 9 30 0 0], drawn 1 g)).
    { rewrite (scheduled_times_loop_cons D 9 30 _ 0 g H1 ltac:(lia)
                 ltac:(unfold datetime.MAXORDINAL in *; lia)).
      - by rewrite next_jitter_zero, (at_second_hm D 9 30 H1).
      - rewrite next_jitter_zero. unfold representable.
        rewrite Z.div_small by lia. lia. }
    change D with (datetime.date (datetime.mk D 23 0 0 0)) in Hloop at 1.
    rewrite (get_next_schedule_time_rollover_eq (datetime.mk D 23 0 0 0) 9 30 [] 0 g
               (drawn 1 g) [datetime.mk D 9 30 0 0] HD Hloop).
    + rewrite next_jitter_zero. cbn [datetime.date].
      rewrite (at_second_hm (D + 1) 9 30 H1). do 2 f_equal.
      unfold drawn; simpl. f_equal. lia.
    + intros t Ht. apply list_elem_of_singleton in Ht as ->.
      unfold datetime.gtb. by rewrite (ltb_same_date D 23 0 0 0 9 30 0 0).
    + rewrite next_jitter_zero. cbn [datetime.date]. unfold representable.
      rewrite Z.div_small by lia. unfold datetime.MAXORDINAL in *. lia.
Qed.

(** The scheduler's own schedule at 20:00 of day 738000, with the jitters
    -900 s, -800 s and -700 s today and -600 s tomorrow; and example 3 of
    the specification. *)
Lemma get_next_schedule_time_tomorrow_first_witness :
  (mk_rng (fun n => Z.of_nat n * 100) 3
   = drawn (length ((9, 30) :: [(14, 0); (19, 0)])) (mk_rng (fun n => Z.of_nat n * 100) 0) ∧
   - 15 * 60 <= next_jitter 15 (mk_rng (fun n => Z.of_nat n * 100) 3) <= 15 * 60 ∧
   get_next_schedule_time (datetime.mk 738000 20 0 0 0) ((9, 30) :: [(14, 0); (19, 0)]) 15
     (mk_rng (fun n => Z.of_nat n * 100) 0)
   = Ok (at_second (datetime.date (datetime.mk 738000 20 0 0 0) + 1)
           (9 * 3600 + 30 * 60 + next_jitter 15 (mk_rng (fun n => Z.of_nat n * 100) 3)),
         drawn 1 (mk_rng (fun n => Z.of_nat n * 100) 3)))
  ∧
  get_next_schedule_time (datetime.mk 738000 23 0 0 0) [(9, 30)] 0
    (mk_rng (fun _ => 0) 0)
  = Ok (datetime.mk (738000 + 1) 9 30 0 0, drawn 2 (mk_rng (fun _ => 0) 0)).
Proof.
  split.
  - apply (proj1 get_next_schedule_time_tomorrow_first (datetime.mk 738000 20 0 0 0)
             9 30 [(14, 0); (19, 0)] 15 (mk_rng (fun n => Z.of_nat n * 100) 0)
             (mk_rng (fun n => Z.of_nat n * 100) 3)
             [datetime.mk 738000 9 15 0 0; datetime.mk 738000 13 46 40 0;
              datetime.mk 738000 18 48 20 0]).
    + unfold datetime.MAXORDINAL; simpl; lia.
    + reflexivity.
    + intros t Ht. repeat (apply elem_of_cons in Ht as [->|Ht]; [reflexivity|]).
      by apply elem_of_nil in Ht.
    + vm_compute. split; discriminate.
  - apply (proj2 get_next_schedule_time_tomorrow_first 738000 (mk_rng (fun _ => 0) 0)).
    unfold datetime.MAXORDINAL. lia.
Defined.

(** C6 as stated fails, with none of today's instants after [now] each
    time: an empty schedule has no first base time ([IndexError]); on the
    last representable date there is no tomorrow ([OverflowError]); and on
    the day before it, the base time 23:59 moved by +900 s falls beyond the
    last date ([OverflowError]). *)
Lemma get_next_schedule_time_tomorrow_first_counterexample :
  (rollover (datetime.mk 738000 23 0 0 0) [] 15 (mk_rng (fun _ => 0) 0) ∧
   get_next_schedule_time (datetime.mk 738000 23 0 0 0) [] 15 (mk_rng (fun _ => 0) 0)
   = Raise IndexError)
  ∧
  (rollover (datetime.mk 3652059 23 0 0 0) [(9, 30)] 0 (mk_rng (fun _ => 0) 0) ∧
   get_next_schedule_time (datetime.mk 3652059 23 0 0 0) [(9, 30)] 0
     (mk_rng (fun _ => 0) 0)
   = Raise OverflowError)
  ∧
  (rollover (datetime.mk 3652058 23 59 0 0) [(23, 59)] 15
     (mk_rng (fun n => match n with O => 900 | _ => 1800 end) 0) ∧
   get_next_schedule_time (datetime.mk 3652058 23 59 0 0) [(23, 59)] 15
     (mk_rng (fun n => match n with O => 900 | _ => 1800 end) 0)
   = Raise OverflowError).
Proof.
  split; [|split].
  - split; [|reflexivity].
    exists [], (mk_rng (fun _ => 0) 0). split; [reflexivity|].
    intros t Ht. by apply elem_of_nil in Ht.
  - split; [|reflexivity].
    exists [datetime.mk 3652059 9 30 0 0], (mk_rng (fun _ => 0) 1).
    split; [reflexivity|].
    intros t Ht. apply list_elem_of_singleton in Ht as ->. reflexivity.
  - split; [|reflexivity].
    exists [datetime.mk 3652058 23 59 0 0],
           (mk_rng (fun n => match n with O => 900 | _ => 1800 end) 1).
    split; [reflexivity|].
    intros t Ht. apply list_elem_of_singleton in Ht as ->. reflexivity.
Qed.

(** ** Slot keys *)

(** C2 fails on the code.  Two computations for the 09:30 slot of day
    738000, both at 08:00 and both with a jitter inside the bound of 15
    minutes (-1 s and 0 s), give the targets 09:29:59 and 09:30:00, whose
    keys differ: the half-hour bucket is taken of the jittered minute. *)
Theorem schedule_key_depends_on_jitter :
  ∃ t1 g1 t2 g2,
    get_next_schedule_time (datetime.mk 738000 8 0 0 0) SCHEDULE_TIMES JITTER_MINUTES
      (mk_rng (fun _ => 899) 0) = Ok (t1, g1) ∧
    get_next_schedule_time (datetime.mk 738000 8 0 0 0) SCHEDULE_TIMES JITTER_MINUTES
      (mk_rng (fun _ => 900) 0) = Ok (t2, g2) ∧
    t1 = datetime.mk 738000 9 29 59 0 ∧
    t2 = datetime.mk 738000 9 30 0 0 ∧
    schedule_key t1 = (738000, 9, 0) ∧
    schedule_key t2 = (738000, 9, 1) ∧
    schedule_key t1 ≠ schedule_key t2.
Proof.
  eexists _, _, _, _.
  split; [vm_compute; reflexivity|]. split; [vm_compute; reflexivity|].
  split; [reflexivity|]. split; [reflexivity|].
  split; [reflexivity|]. split; [reflexivity|]. by vm_compute.
Qed.

(** ** The scheduler loop *)

Lemma bind_eff {A B : Type} (m : Eff A) (f : A → Eff B) (w : World) :
  (m ≫= f) w = match m w with
               | (Val a, w') => f a w'
               | (Exn e, w') => (Exn e, w')
               | (OutOfFuel, w') => (OutOfFuel, w')
               end.
Proof. reflexivity. Qed.

Lemma launch_exc_is_Exception (l : launch_error) : is_Exception (launch_exc l) = true.
Proof. by destruct l. Qed.

Lemma smtp_exc_is_Exception (f : smtp_failure) : is_Exception (smtp_exc f) = true.
Proof. by destruct f. Qed.

(** A key that is in the set is not dispatched again: the round logs the
    skip at level WARNING and leaves the state and the child alone. *)
Lemma check_and_dispatch_skips (once : bool) (deli_path : string)
    (target : datetime.t) (st : LoopState) (w : World) :
  schedule_key target ∈ today_executed st →
  check_and_dispatch once deli_path target st w
  = (Val (Next st),
     mk_world (clock w) (rng w) (children w) (is_file w) (log_day w)
              (trace w ++ [Log WARNING (MsgSkip target)]) (log_fs w)).
Proof.
  intros Hin. unfold check_and_dispatch.
  destruct (decide (schedule_key target ∈ today_executed st)); [|done].
  reflexivity.
Qed.

(** [run_deli_signup] returns in every case, and only appends to the trace. *)
Lemma run_deli_signup_returns (script_path : string) (w : World) :
  ∃ rc tr,
    run_deli_signup script_path w
    = (Val rc, mk_world (clock w) (rng w) (snd (ask (children w))) (is_file w)
                        (log_day w) (trace w ++ tr) (log_fs w)) ∧
    match fst (ask (children w)) with
    | Completed proc => rc = returncode proc
    | NotLaunched l =>
        rc = -1 ∧
        tr = [Log INFO (MsgChildStart script_path); Spawn script_path;
              Log ERROR (MsgLaunchFailed (launch_exc l))]
    | Undecodable _ =>
        rc = -1 ∧
        tr = [Log INFO (MsgChildStart script_path); Spawn script_path;
              Log ERROR (MsgLaunchFailed UnicodeDecodeError)]
    end.
Proof.
  unfold run_deli_signup, try_except_eff, subprocess_run, logger_info,
    logger_warning, logger_exception, emit, when, mbind, Eff_bind, mret, Eff_ret, ask.
  simpl.
  destruct (answers (children w) (asked (children w))) as [proc|l|rc0]; simpl.
  - destruct (truthy (stdout proc)), (truthy (stderr proc)); simpl;
      eexists _, _; (split; [rewrite <- ?app_assoc; reflexivity | reflexivity]).
  - rewrite launch_exc_is_Exception; simpl.
    eexists _, _. split; [rewrite <- ?app_assoc; reflexivity|]. done.
  - eexists _, _. split; [rewrite <- ?app_assoc; reflexivity|]. done.
Qed.

(** After a dispatch the key is in the set, whatever became of the child. *)
Lemma check_and_dispatch_marks (deli_path : string) (target : datetime.t)
    (st : LoopState) (w : World) :
  schedule_key target ∉ today_executed st →
  ∃ st' w', check_and_dispatch false deli_path target st w = (Val (Next st'), w') ∧
            today_executed st' = {[schedule_key target]} ∪ today_executed st ∧
            current_day st' = current_day st.
Proof.
  intros Hnotin. unfold check_and_dispatch.
  destruct (decide (schedule_key target ∈ today_executed st)); [done|].
  unfold mbind at 1, Eff_bind at 1. unfold logger_info at 1, emit.
  unfold mbind at 1, Eff_bind at 1.
  destruct (run_deli_signup_returns deli_path
              (mk_world (clock w) (rng w) (children w) (is_file w) (log_day w)
                        (trace w ++ [Log INFO (MsgDispatch target)]) (log_fs w)))
    as (rc & tr & -> & _).
  eexists _, _. split; [reflexivity|]. done.
Qed.

(** C3 fails on the code.  In [evening_world] the round that starts at
    20:00 of day 738000 waits for 09:30:00 of day 738001 and launches the
    child; the next round starts at 09:31:00, sees the new day, clears the
    set that holds the key just added, draws 09:40:00 for the same slot and
    launches the child again: the two targets have the same key, and no skip
    is logged. *)
Theorem same_key_launched_twice :
  observed (iteration false "deliSignup.py" 1000 (mk_state ∅ 738000) evening_world)
  = Some ([(738001, 9, 1)],
          [Log INFO (MsgNextRun (datetime.mk 738001 9 30 0 0) 48600000000);
           Log INFO (MsgDispatch (datetime.mk 738001 9 30 0 0));
           Log INFO (MsgChildStart "deliSignup.py");
           Spawn "deliSignup.py";
           Log INFO (MsgChildExit 0);
           Log INFO (MsgExecutedCount 1);
           Log INFO MsgWaitNext]) ∧
  observed (two_rounds "deliSignup.py" 1000 (mk_state ∅ 738000) evening_world)
  = Some ([(738001, 9, 1)],
          [Log INFO (MsgNextRun (datetime.mk 738001 9 30 0 0) 48600000000);
           Log INFO (MsgDispatch (datetime.mk 738001 9 30 0 0));
           Log INFO (MsgChildStart "deliSignup.py");
           Spawn "deliSignup.py";
           Log INFO (MsgChildExit 0);
           Log INFO (MsgExecutedCount 1);
           Log INFO MsgWaitNext;
           Log INFO (MsgNewDay 738001);
           Log INFO (MsgNextRun (datetime.mk 738001 9 40 0 0) 540000000);
           Log INFO (MsgDispatch (datetime.mk 738001 9 40 0 0));
           Log INFO (MsgChildStart "deliSignup.py");
           Spawn "deliSignup.py";
           Log INFO (MsgChildExit 0);
           Log INFO (MsgExecutedCount 1);
           Log INFO MsgWaitNext]) ∧
  schedule_key (datetime.mk 738001 9 30 0 0) = (738001, 9, 1) ∧
  schedule_key (datetime.mk 738001 9 40 0 0) = (738001, 9, 1).
Proof.
  split; [vm_compute; reflexivity|].
  split; [vm_compute; reflexivity|].
  split; reflexivity.
Qed.

(** C4.  When the date read at the start of a round differs from
    [current_day], the check for a new day leaves the set of executed slots
    empty, whatever it held, takes the new date as [current_day] and logs
    the reset; the round then goes exactly as it would have gone from the
    empty set: no key recorded before plays a part in it. *)
Theorem new_day_check_clears (st : LoopState) (w : World) :
  datetime.date (fst (ask (clock w))) ≠ current_day st →
  (∀ w0 : World,
     ∃ st' w', new_day_check (fst (ask (clock w))) st w0 = (Val st', w') ∧
               today_executed st' = ∅ ∧
               current_day st' = datetime.date (fst (ask (clock w))) ∧
               trace w' = trace w0
                          ++ [Log INFO (MsgNewDay (datetime.date (fst (ask (clock w)))))])
  ∧
  (∀ (once : bool) (deli_path : string) (fuel : nat),
     iteration once deli_path fuel st w
     = iteration once deli_path fuel (mk_state ∅ (current_day st)) w).
Proof.
  intros Hne. split.
  - intros w0. unfold new_day_check.
    destruct (decide (datetime.date (ask (clock w)).1 ≠ current_day st)); [|done].
    eexists _, _. split; [reflexivity|]. done.
  - intros once deli_path fuel. unfold iteration.
    rewrite !bind_eff. unfold datetime_now.
    destruct (ask (clock w)) as [now c] eqn:Hask. simpl in Hne.
    rewrite !bind_eff. unfold new_day_check.
    change (current_day (mk_state ∅ (current_day st))) with (current_day st).
    by destruct (decide (datetime.date now ≠ current_day st)).
Qed.

(** The set holds three keys of day 738000 when the clock is read at
    01:00:00 of day 738001. *)
Lemma new_day_check_clears_witness :
  (∀ w0 : World,
     ∃ st' w',
       new_day_check (fst (ask (clock night_world)))
         (mk_state {[(738000, 9, 1); (738000, 14, 0); (738000, 19, 0)]} 738000) w0
       = (Val st', w') ∧
       today_executed st' = ∅ ∧
       current_day st' = datetime.date (fst (ask (clock night_world))) ∧
       trace w' = trace w0
                  ++ [Log INFO (MsgNewDay (datetime.date (fst (ask (clock night_world)))))])
  ∧
  (∀ (once : bool) (deli_path : string) (fuel : nat),
     iteration once deli_path fuel
       (mk_state {[(738000, 9, 1); (738000, 14, 0); (738000, 19, 0)]} 738000)
       night_world
     = iteration once deli_path fuel
         (mk_state ∅ (current_day
            (mk_state {[(738000, 9, 1); (738000, 14, 0); (738000, 19, 0)]} 738000)))
         night_world).
Proof.
  apply (new_day_check_clears
           (mk_state {[(738000, 9, 1); (738000, 14, 0); (738000, 19, 0)]} 738000)
           night_world).
  vm_compute. discriminate.
Defined.

(** C7, as amended.  [run_deli_signup] returns for every script path and
    every behaviour of [subprocess.run]: the child's return code when
    [subprocess.run] returns, and -1, after logging the failure, when it
    raises, be it that the child cannot be launched or that the child ran
    and its output cannot be decoded as text; and a round of the loop that
    is not in [--once] mode goes on to the next round whatever happened. *)
Theorem run_deli_signup_never_raises (script_path : string) (w : World) :
  (∃ rc w', run_deli_signup script_path w = (Val rc, w') ∧
            match fst (ask (children w)) with
            | Completed proc => rc = returncode proc
            | NotLaunched l =>
                rc = -1 ∧
                last (trace w') = Some (Log ERROR (MsgLaunchFailed (launch_exc l)))
            | Undecodable _ =>
                rc = -1 ∧
                last (trace w') = Some (Log ERROR (MsgLaunchFailed UnicodeDecodeError))
            end)
  ∧
  (∀ (target : datetime.t) (st : LoopState),
     ∃ st' w', check_and_dispatch false script_path target st w = (Val (Next st'), w')).
Proof.
  split.
  - destruct (run_deli_signup_returns script_path w) as (rc & tr & Hrun & Hrc).
    eexists _, _. split; [exact Hrun|].
    destruct (fst (ask (children w))) as [proc|l|rc0]; [done| |].
    + destruct Hrc as [-> ->]. split; [done|]. simpl.
      replace (trace w ++ [Log INFO (MsgChildStart script_path); Spawn script_path;
                           Log ERROR (MsgLaunchFailed (launch_exc l))])
        with ((trace w ++ [Log INFO (MsgChildStart script_path); Spawn script_path])
              ++ [Log ERROR (MsgLaunchFailed (launch_exc l))])
        by (by rewrite <- app_assoc).
      apply last_snoc.
    + destruct Hrc as [-> ->]. split; [done|]. simpl.
      replace (trace w ++ [Log INFO (MsgChildStart script_path); Spawn script_path;
                           Log ERROR (MsgLaunchFailed UnicodeDecodeError)])
        with ((trace w ++ [Log INFO (MsgChildStart script_path); Spawn script_path])
              ++ [Log ERROR (MsgLaunchFailed UnicodeDecodeError)])
        by (by rewrite <- app_assoc).
      apply last_snoc.
  - intros target st.
    destruct (decide (schedule_key target ∈ today_executed st)) as [Hin|Hnotin].
    + rewrite (check_and_dispatch_skips false script_path target st w Hin). eauto.
    + destruct (check_and_dispatch_marks script_path target st w Hnotin)
        as (st' & w' & H & _). eauto.
Qed.

(** C7 as stated fails: a child that is launched and exits with 0, but
    writes bytes that are no text, makes [subprocess.run] raise
    [UnicodeDecodeError]; [run_deli_signup] then returns -1, not the
    child's return code. *)
Lemma run_deli_signup_never_raises_counterexample :
  fst (ask (children
        (mk_world (evening_clock 738000) late_fifth_draw
                  (mk_oracle (fun _ => Undecodable 0) 0)
                  (fun _ => true) (Some 738000) [] (fun _ => None))))
  = Undecodable 0 ∧
  fst (run_deli_signup "deliSignup.py"
        (mk_world (evening_clock 738000) late_fifth_draw
                  (mk_oracle (fun _ => Undecodable 0) 0)
                  (fun _ => true) (Some 738000) [] (fun _ => None)))
  = Val (-1) ∧
  -1 ≠ 0.
Proof. split; [reflexivity|]. split; [reflexivity | lia]. Qed.

(** C8, as amended.  When [deliSignup.py] is not a file and the file
    system lets the log be set up (the log directory can be made and, if no
    handler is installed yet, the log file opened), [main] returns 2 in
    either mode and with any fuel: it logs the start and the error, and
    neither draws a jitter, nor sleeps, nor starts a child; the clock was
    read only for the name of the log file. *)
Theorem main_missing_script (once : bool) (here : string) (fuel : nat) (w : World) :
  is_file w (os_path_join here "deliSignup.py") = false →
  log_fs w (Makedirs (os_path_join here "log")) = None →
  (log_day w = None →
   log_fs w (OpenLog (os_path_join here "log") (datetime.date (fst (ask (clock w)))))
   = None) →
  ∃ w', main once here fuel w = (Val 2, w') ∧
        trace w' = trace w ++ [Log INFO MsgSchedulerStart;
                               Log ERROR (MsgScriptMissing (os_path_join here "deliSignup.py"))] ∧
        rng w' = rng w ∧
        children w' = children w ∧
        asked (clock w') = S (asked (clock w)).
Proof.
  intros Hmissing Hdir Hopen.
  unfold main, setup_logging, install_handlers, add_handlers, logger_has_handlers,
    fs_do, date_today, datetime_now, logger_info, logger_error,
    emit, os_path_isfile, mbind, Eff_bind, mret, Eff_ret, ask in *.
  cbn [fst snd clock rng children is_file log_day trace log_fs answers asked] in *.
  rewrite Hdir. cbn [fst snd clock rng children is_file log_day trace log_fs].
  destruct (log_day w) as [d|] eqn:Hday;
    cbn [negb fst snd clock rng children is_file log_day trace log_fs].
  - rewrite Hmissing. cbn [negb].
    eexists. split; [reflexivity|]. simpl. rewrite <- app_assoc. done.
  - rewrite (Hopen eq_refl).
    cbn [negb fst snd clock rng children is_file log_day trace log_fs].
    rewrite Hmissing. cbn [negb].
    eexists. split; [reflexivity|]. simpl. rewrite <- app_assoc. done.
Qed.

(** Example 5 of the specification: [--once], no script. *)
Lemma main_missing_script_witness :
  ∃ w', main true "/opt/deli" 0
          (mk_world (evening_clock 738000) late_fifth_draw
                    (mk_oracle (fun _ => Completed (mk_proc 0 "" "")) 0)
                    (fun _ => false) None [] (fun _ => None)) = (Val 2, w') ∧
        trace w' = [] ++ [Log INFO MsgSchedulerStart;
                          Log ERROR (MsgScriptMissing (os_path_join "/opt/deli" "deliSignup.py"))] ∧
        rng w' = late_fifth_draw ∧
        children w' = mk_oracle (fun _ => Completed (mk_proc 0 "" "")) 0 ∧
        asked (clock w') = 1%nat.
Proof.
  apply (main_missing_script true "/opt/deli" 0
           (mk_world (evening_clock 738000) late_fifth_draw
                     (mk_oracle (fun _ => Completed (mk_proc 0 "" "")) 0)
                     (fun _ => false) None [] (fun _ => None))).
  - reflexivity.
  - reflexivity.
  - intros _. reflexivity.
Defined.

(** C8 as stated fails: when the log directory cannot be made,
    [setup_logging] raises before the script is looked for, and [main]
    ends with that exception instead of returning 2. *)
Lemma main_missing_script_counterexample :
  is_file (mk_world (evening_clock 738000) late_fifth_draw
                    (mk_oracle (fun _ => Completed (mk_proc 0 "" "")) 0)
                    (fun _ => false) None []
                    (fun c => match c with
                              | Makedirs _ => Some FsPermissionDenied
                              | _ => None
                              end))
          (os_path_join "/opt/deli" "deliSignup.py") = false ∧
  fst (main true "/opt/deli" 0
         (mk_world (evening_clock 738000) late_fifth_draw
                   (mk_oracle (fun _ => Completed (mk_proc 0 "" "")) 0)
                   (fun _ => false) None []
                   (fun c => match c with
                             | Makedirs _ => Some FsPermissionDenied
                             | _ => None
                             end)))
  = Exn PermissionError.
Proof. split; reflexivity. Qed.

(** C10 fails on the code.  In [evening_world_no_launch] the child of the
    09:30 slot of day 738001 cannot be launched (return code -1) and the
    key is added; the next round, at 09:31:00 of that day, clears the set
    and launches the child at 09:40:00 for the same key. *)
Theorem failed_slot_launched_again :
  observed (iteration false "deliSignup.py" 1000 (mk_state ∅ 738000)
              evening_world_no_launch)
  = Some ([(738001, 9, 1)],
          [Log INFO (MsgNextRun (datetime.mk 738001 9 30 0 0) 48600000000);
           Log INFO (MsgDispatch (datetime.mk 738001 9 30 0 0));
           Log INFO (MsgChildStart "deliSignup.py");
           Spawn "deliSignup.py";
           Log ERROR (MsgLaunchFailed FileNotFoundError);
           Log INFO (MsgExecutedCount 1);
           Log INFO MsgWaitNext]) ∧
  observed (two_rounds "deliSignup.py" 1000 (mk_state ∅ 738000)
              evening_world_no_launch)
  = Some ([(738001, 9, 1)],
          [Log INFO (MsgNextRun (datetime.mk 738001 9 30 0 0) 48600000000);
           Log INFO (MsgDispatch (datetime.mk 738001 9 30 0 0));
           Log INFO (MsgChildStart "deliSignup.py");
           Spawn "deliSignup.py";
           Log ERROR (MsgLaunchFailed FileNotFoundError);
           Log INFO (MsgExecutedCount 1);
           Log INFO MsgWaitNext;
           Log INFO (MsgNewDay 738001);
           Log INFO (MsgNextRun (datetime.mk 738001 9 40 0 0) 540000000);
           Log INFO (MsgDispatch (datetime.mk 738001 9 40 0 0));
           Log INFO (MsgChildStart "deliSignup.py");
           Spawn "deliSignup.py";
           Log INFO (MsgChildExit 0);
           Log INFO (MsgExecutedCount 1);
           Log INFO MsgWaitNext]) ∧
  schedule_key (datetime.mk 738001 9 30 0 0) = (738001, 9, 1) ∧
  schedule_key (datetime.mk 738001 9 40 0 0) = (738001, 9, 1).
Proof.
  split; [vm_compute; reflexivity|].
  split; [vm_compute; reflexivity|].
  split; reflexivity.
Qed.

(** ** The mail helper *)

Lemma serialise_exc_is_Exception (f : serialise_failure) :
  is_Exception (serialise_exc f) = true.
Proof. by destruct f. Qed.

Lemma print_exc_is_Exception (f : print_failure) : is_Exception (print_exc f) = true.
Proof. by destruct f. Qed.

Lemma build_message_encodable (subject content sender_email receiver_email : pystr) :
  utf8_encodable content = true →
  build_message subject content sender_email receiver_email
  = Ok (mk_msg content sender_email receiver_email subject).
Proof. intros H. unfold build_message. by rewrite H. Qed.

Lemma smtp_do_ok (p : smtp_peer) (c : smtp_call) :
  smtp_exc <$> p c = None → smtp_do p c = Ok tt.
Proof. unfold smtp_do. by destruct (p c). Qed.

Lemma smtp_do_fail (p : smtp_peer) (c : smtp_call) (e : exc_class) :
  smtp_exc <$> p c = Some e → smtp_do p c = Raise e ∧ is_Exception e = true.
Proof.
  unfold smtp_do. destruct (p c) as [f|]; [|done].
  intros [= <-]. split; [done | apply smtp_exc_is_Exception].
Qed.

Lemma as_string_ok (env : mail_env) (msg : MIMEText) :
  serialise_exc <$> as_string_fails env msg = None → as_string env msg = Ok tt.
Proof. unfold as_string. by destruct (as_string_fails env msg). Qed.

Lemma as_string_fail (env : mail_env) (msg : MIMEText) (e : exc_class) :
  serialise_exc <$> as_string_fails env msg = Some e →
  as_string env msg = Raise e ∧ is_Exception e = true.
Proof.
  unfold as_string. destruct (as_string_fails env msg) as [f|]; [|done].
  intros [= <-]. split; [done | apply serialise_exc_is_Exception].
Qed.

(** The handler of the [try], when the standard output takes the line. *)
Lemma send_email_handler (env : mail_env) (body : result (bool * list printed))
    (e : exc_class) :
  body = Raise e → is_Exception e = true →
  print_fails env (PrintFailed e) = None →
  try_except body (fun e => out ← py_print env (PrintFailed e); Ok (false, out))
  = Ok (false, [PrintFailed e]).
Proof.
  intros -> He Hp. unfold try_except, py_print. by rewrite He, Hp.
Qed.

(** C9, as amended.  For every input whose content UTF-8 can encode and a
    standard output that takes what is printed, [send_email] returns a
    boolean, whatever the network, the server and the serialiser do:
    [True] exactly when the connection, the TLS upgrade, the login, the
    serialisation of the message, the submission and the closing all go
    through, [False] as soon as one of them fails; it does not raise. *)
Theorem send_email_returns_bool (subject content sender_email sender_password
    receiver_email smtp_server : pystr) (smtp_port : Z) (env : mail_env) :
  utf8_encodable content = true →
  (∀ line, print_fails env line = None) →
  ∃ b out,
    send_email subject content sender_email sender_password receiver_email
               smtp_server smtp_port env = Ok (b, out) ∧
    (b = true ↔
       peer env (SMTP_connect smtp_server smtp_port) = None ∧
       peer env SMTP_starttls = None ∧
       peer env (SMTP_login sender_email sender_password) = None ∧
       as_string_fails env (mk_msg content sender_email receiver_email subject) = None ∧
       peer env (SMTP_sendmail sender_email [receiver_email]
                   (mk_msg content sender_email receiver_email subject)) = None ∧
       peer env SMTP_quit = None) ∧
    (b = true → out = [PrintSent]) ∧
    (b = false → ∃ e, is_Exception e = true ∧ out = [PrintFailed e]).
Proof.
  intros Henc Hprint. unfold send_email.
  rewrite (build_message_encodable _ _ _ _ Henc), bind_Ok.
  set (msg := mk_msg content sender_email receiver_email subject).
  assert (Hfail : ∀ e, is_Exception e = true →
            ∃ b out,
              try_except (Raise e)
                (fun e => out ← py_print env (PrintFailed e); Ok (false, out))
              = Ok (b, out) ∧ b = false ∧ ∃ e, is_Exception e = true ∧ out = [PrintFailed e]).
  { intros e He. exists false, [PrintFailed e].
    split; [by apply send_email_handler|]. split; [done|]. eauto. }
  unfold smtp_do, as_string.
  destruct (peer env (SMTP_connect smtp_server smtp_port)) as [f1|] eqn:E1.
  { rewrite bind_Raise.
    destruct (Hfail _ (smtp_exc_is_Exception f1))
      as (b & out & -> & -> & Hout).
    eexists _, _. split; [reflexivity|]. split; [split; [done|by intros (? & _)]|].
    split; [done | by intros _]. }
  rewrite bind_Ok.
  destruct (peer env SMTP_starttls) as [f2|] eqn:E2.
  { rewrite bind_Raise.
    destruct (Hfail _ (smtp_exc_is_Exception f2))
      as (b & out & -> & -> & Hout).
    eexists _, _. split; [reflexivity|].
    split; [split; [done|by intros (_ & ? & _)]|]. split; [done | by intros _]. }
  rewrite bind_Ok.
  destruct (peer env (SMTP_login sender_email sender_password)) as [f3|] eqn:E3.
  { rewrite bind_Raise.
    destruct (Hfail _ (smtp_exc_is_Exception f3))
      as (b & out & -> & -> & Hout).
    eexists _, _. split; [reflexivity|].
    split; [split; [done|by intros (_ & _ & ? & _)]|]. split; [done | by intros _]. }
  rewrite bind_Ok.
  destruct (as_string_fails env msg) as [f4|] eqn:E4.
  { rewrite bind_Raise.
    destruct (Hfail _ (serialise_exc_is_Exception f4))
      as (b & out & -> & -> & Hout).
    eexists _, _. split; [reflexivity|].
    split; [split; [done|by intros (_ & _ & _ & ? & _)]|]. split; [done | by intros _]. }
  rewrite bind_Ok.
  destruct (peer env (SMTP_sendmail sender_email [receiver_email] msg)) as [f5|] eqn:E5.
  { rewrite bind_Raise.
    destruct (Hfail _ (smtp_exc_is_Exception f5))
      as (b & out & -> & -> & Hout).
    eexists _, _. split; [reflexivity|].
    split; [split; [done|by intros (_ & _ & _ & _ & ? & _)]|].
    split; [done | by intros _]. }
  rewrite bind_Ok.
  destruct (peer env SMTP_quit) as [f6|] eqn:E6.
  { rewrite bind_Raise.
    destruct (Hfail _ (smtp_exc_is_Exception f6))
      as (b & out & -> & -> & Hout).
    eexists _, _. split; [reflexivity|].
    split; [split; [done|by intros (_ & _ & _ & _ & _ & ?)]|].
    split; [done | by intros _]. }
  rewrite bind_Ok. unfold py_print at 1. rewrite Hprint, bind_Ok. unfold try_except.
  eexists _, _. split; [reflexivity|]. split; [done|]. split; [done|done].
Qed.

(** A server that refuses the login. *)
Lemma send_email_returns_bool_witness :
  ∃ b out,
    send_email (text "alert") (text "Hello") (text "a@qq.com") (text "code")
               (text "b@qq.com") (text "smtp.qq.com") 587 login_refusing_env
    = Ok (b, out) ∧
    (b = true ↔
       peer login_refusing_env (SMTP_connect (text "smtp.qq.com") 587) = None ∧
       peer login_refusing_env SMTP_starttls = None ∧
       peer login_refusing_env (SMTP_login (text "a@qq.com") (text "code")) = None ∧
       as_string_fails login_refusing_env
         (mk_msg (text "Hello") (text "a@qq.com") (text "b@qq.com") (text "alert")) = None ∧
       peer login_refusing_env
         (SMTP_sendmail (text "a@qq.com") [text "b@qq.com"]
            (mk_msg (text "Hello") (text "a@qq.com") (text "b@qq.com") (text "alert")))
       = None ∧
       peer login_refusing_env SMTP_quit = None) ∧
    (b = true → out = [PrintSent]) ∧
    (b = false → ∃ e, is_Exception e = true ∧ out = [PrintFailed e]).
Proof.
  apply (send_email_returns_bool (text "alert") (text "Hello") (text "a@qq.com")
           (text "code") (text "b@qq.com") (text "smtp.qq.com") 587 login_refusing_env).
  - reflexivity.
  - intros line. reflexivity.
Defined.

(** C9 as stated fails.  A content that holds the lone surrogate U+DCFF
    makes [MIMEText] raise [UnicodeEncodeError] before the [try], with a
    server that would accept everything; and when the standard output is
    closed, the [print] of the handler raises [ValueError] after a refused
    login.  In both cases the exception reaches the caller. *)
Lemma send_email_returns_bool_counterexample :
  send_email (text "alert") [56575%N] (text "a@qq.com") (text "code")
             (text "b@qq.com") (text "smtp.qq.com") 587 willing_env
  = Raise UnicodeEncodeError
  ∧
  send_email (text "alert") (text "Hello") (text "a@qq.com") (text "code")
             (text "b@qq.com") (text "smtp.qq.com") 587
             (mk_env (fun c => match c with
                               | SMTP_login _ _ => Some AuthenticationFailed
                               | _ => None
                               end) (fun _ => None) (fun _ => Some StdoutClosed))
  = Raise ValueError.
Proof. split; reflexivity. Qed.

(** * Further properties of the code *)

(** ** [get_next_schedule_time]: errors and bounds *)

(** X1.  With an empty schedule the function raises [IndexError] (from
    [schedule_times[0]]) on every date but the last, for every jitter bound
    and every state of the generator. *)
Theorem get_next_schedule_time_empty (now : datetime.t) (j : Z) (g : Rng) :
  1 <= datetime.date now < datetime.MAXORDINAL →
  get_next_schedule_time now [] j g = Raise IndexError.
Proof.
  intros Hd. unfold get_next_schedule_time. simpl scheduled_times_loop.
  rewrite bind_Ok, filter_nil.
  change (datetime.timedelta_days 1) with (Ok (datetime.mk_td 1 0 0)).
  rewrite bind_Ok. unfold datetime.date_add; simpl datetime.days.
  replace ((0 <? datetime.date now + 1) && (datetime.date now + 1 <=? datetime.MAXORDINAL))
    with true by (symmetry; apply andb_true_iff; lia).
  by rewrite bind_Ok.
Qed.

Lemma get_next_schedule_time_empty_witness :
  get_next_schedule_time (datetime.mk 738000 8 0 0 0) [] 15 (mk_rng (fun _ => 0) 0)
  = Raise IndexError.
Proof.
  apply (get_next_schedule_time_empty (datetime.mk 738000 8 0 0 0) 15
           (mk_rng (fun _ => 0) 0)).
  unfold datetime.MAXORDINAL; simpl; lia.
Defined.

(** X2.  With a non-empty schedule, whatever [now] is: an hour or minute
    of the first base time that does not fit a C [int] raises
    [OverflowError]; otherwise a negative jitter bound, or a first base time
    that is no time of day, raises [ValueError]. *)
Theorem get_next_schedule_time_bad_arguments (now : datetime.t) (h m : Z)
    (rest : list (Z * Z)) (j : Z) (g : Rng) :
  (datetime.fits_c_int h = false ∨ datetime.fits_c_int m = false →
   get_next_schedule_time now ((h, m) :: rest) j g = Raise OverflowError)
  ∧
  (datetime.fits_c_int h = true → datetime.fits_c_int m = true →
   j < 0 ∨ ¬ valid_hm (h, m) →
   get_next_schedule_time now ((h, m) :: rest) j g = Raise ValueError).
Proof.
  unfold get_next_schedule_time. simpl scheduled_times_loop.
  unfold datetime.time_new. split.
  - intros [Hh | Hm].
    + by rewrite Hh.
    + rewrite Hm. by destruct (datetime.fits_c_int h).
  - intros Hh Hm Hbad. rewrite Hh, Hm. cbn [negb].
    destruct ((0 <=? h) && (h <=? 23)) eqn:Eh; simpl negb; cbv iota; [|done].
    destruct ((0 <=? m) && (m <=? 59)) eqn:Em; simpl negb; cbv iota; [|done].
    apply andb_true_iff in Eh, Em.
    destruct Hbad as [Hj | Hhm]; [|exfalso; apply Hhm; split; simpl; lia].
    rewrite bind_Ok. unfold randint.
    replace (j * 60 <? - j * 60) with true by (symmetry; apply Z.ltb_lt; lia).
    done.
Qed.

Lemma get_next_schedule_time_bad_arguments_witness :
  get_next_schedule_time (datetime.mk 738000 8 0 0 0) ((2147483648, 0) :: [(14, 0)]) 15
    (mk_rng (fun _ => 0) 0) = Raise OverflowError
  ∧
  get_next_schedule_time (datetime.mk 738000 8 0 0 0) ((9, 30) :: [(14, 0)]) (-1)
    (mk_rng (fun _ => 0) 0) = Raise ValueError
  ∧
  get_next_schedule_time (datetime.mk 738000 8 0 0 0) ((24, 0) :: [(14, 0)]) 15
    (mk_rng (fun _ => 0) 0) = Raise ValueError.
Proof.
  split; [|split].
  - apply (proj1 (get_next_schedule_time_bad_arguments (datetime.mk 738000 8 0 0 0)
                    2147483648 0 [(14, 0)] 15 (mk_rng (fun _ => 0) 0))).
    left. reflexivity.
  - apply (proj2 (get_next_schedule_time_bad_arguments (datetime.mk 738000 8 0 0 0)
                    9 30 [(14, 0)] (-1) (mk_rng (fun _ => 0) 0))).
    + reflexivity.
    + reflexivity.
    + left. lia.
  - apply (proj2 (get_next_schedule_time_bad_arguments (datetime.mk 738000 8 0 0 0)
                    24 0 [(14, 0)] 15 (mk_rng (fun _ => 0) 0))).
    + reflexivity.
    + reflexivity.
    + right. intros [H _]. simpl in H. lia.
Defined.

(** X3.  On the last representable date, once none of today's instants is
    ahead, the function raises [OverflowError]: there is no tomorrow. *)
Theorem get_next_schedule_time_last_day (now : datetime.t)
    (schedule_times : list (Z * Z)) (j : Z) (g g1 : Rng) (ts : list datetime.t) :
  datetime.date now = datetime.MAXORDINAL →
  scheduled_times_loop (datetime.date now) schedule_times j g = Ok (ts, g1) →
  (∀ t, t ∈ ts → datetime.gtb t now = false) →
  get_next_schedule_time now schedule_times j g = Raise OverflowError.
Proof.
  intros Hd Hloop Hnone. unfold get_next_schedule_time.
  rewrite Hloop, bind_Ok, (filter_future_nil now ts Hnone).
  change (datetime.timedelta_days 1) with (Ok (datetime.mk_td 1 0 0)).
  rewrite bind_Ok. unfold datetime.date_add; simpl datetime.days. rewrite Hd.
  reflexivity.
Qed.

Lemma get_next_schedule_time_last_day_witness :
  get_next_schedule_time (datetime.mk 3652059 20 0 0 0) SCHEDULE_TIMES 15
    (mk_rng (fun _ => 900) 0) = Raise OverflowError.
Proof.
  apply (get_next_schedule_time_last_day (datetime.mk 3652059 20 0 0 0) SCHEDULE_TIMES 15
           (mk_rng (fun _ => 900) 0) (mk_rng (fun _ => 900) 3)
           [datetime.mk 3652059 9 30 0 0; datetime.mk 3652059 14 0 0 0;
            datetime.mk 3652059 19 0 0 0]).
  - reflexivity.
  - reflexivity.
  - intros t Ht. repeat (apply elem_of_cons in Ht as [->|Ht]; [reflexivity|]).
    by apply elem_of_nil in Ht.
Defined.

(** Every instant of the [for] loop is a base time of the schedule moved
    by a jitter within the bound. *)
Lemma scheduled_times_loop_elems (today : Z) (schedule_times : list (Z * Z))
    (j : Z) (g g1 : Rng) (ts : list datetime.t) :
  Forall valid_hm schedule_times → 0 <= j → j * 60 < 86400 →
  2 <= today < datetime.MAXORDINAL →
  scheduled_times_loop today schedule_times j g = Ok (ts, g1) →
  ∀ t, t ∈ ts →
    ∃ h m js, (h, m) ∈ schedule_times ∧ - j * 60 <= js <= j * 60 ∧
              t = at_second today (h * 3600 + m * 60 + js).
Proof.
  intros Hv Hj Hj' Hd. revert g g1 ts.
  induction Hv as [|[h m] rest Hhm Hrest IH]; intros g g1 ts Hloop t Ht.
  - simpl in Hloop. injection Hloop as <- <-. by apply elem_of_nil in Ht.
  - destruct (randint_jitter j g Hj) as [_ Hjs].
    pose proof Hhm as [Hh Hm]; simpl in Hh, Hm.
    rewrite scheduled_times_loop_cons in Hloop;
      [| done | done | unfold datetime.MAXORDINAL in *; lia |].
    2:{ unfold representable, datetime.MAXORDINAL in *.
        assert (-1 <= (h * 3600 + m * 60 + next_jitter j g) `div` 86400 <= 1).
        { split.
          - apply Z.div_le_lower_bound; lia.
          - apply Z.lt_succ_r, Z.div_lt_upper_bound; lia. }
        lia. }
    destruct (scheduled_times_loop today rest j (drawn 1 g)) as [[others g2]|e] eqn:El;
      [rewrite bind_Ok in Hloop | done].
    injection Hloop as <- <-.
    apply elem_of_cons in Ht as [->|Ht].
    + exists h, m, (next_jitter j g). split; [apply list_elem_of_here | done].
    + destruct (IH _ _ _ El t Ht) as (h' & m' & js & Hin & Hb & ->).
      exists h', m', js. split; [by apply list_elem_of_further | done].
Qed.

(** X4.  With valid base times, a jitter bound of less than a day and
    [now] at least one day after the first and two days before the last
    date, the function returns, and what it returns is a base time of the
    schedule, taken today or tomorrow, moved by at most the bound; it has
    drawn once for each base time, and once more when it took tomorrow. *)
Theorem get_next_schedule_time_within_jitter (now : datetime.t) (h0 m0 : Z)
    (rest : list (Z * Z)) (j : Z) (g : Rng) :
  Forall valid_hm ((h0, m0) :: rest) → 0 <= j → j * 60 < 86400 →
  2 <= datetime.date now <= datetime.MAXORDINAL - 2 →
  ∃ r h m js,
    (h, m) ∈ (h0, m0) :: rest ∧ - j * 60 <= js <= j * 60 ∧
    ((r = at_second (datetime.date now) (h * 3600 + m * 60 + js) ∧
      get_next_schedule_time now ((h0, m0) :: rest) j g
      = Ok (r, drawn (length ((h0, m0) :: rest)) g))
     ∨
     (r = at_second (datetime.date now + 1) (h * 3600 + m * 60 + js) ∧
      get_next_schedule_time now ((h0, m0) :: rest) j g
      = Ok (r, drawn (S (length ((h0, m0) :: rest))) g))).
Proof.
  intros Hv Hj Hj' Hd.
  assert (Hhm : valid_hm (h0, m0)) by (by inversion Hv).
  pose proof Hhm as [Hh Hm]; simpl in Hh, Hm.
  assert (Hd' : 2 <= datetime.date now < datetime.MAXORDINAL)
    by (unfold datetime.MAXORDINAL in *; lia).
  destruct (scheduled_times_loop_total (datetime.date now) ((h0, m0) :: rest) j g
              Hv Hj Hj' Hd') as [ts Hloop].
  destruct (filter (fun t => datetime.gtb t now = true) ts) as [|t l] eqn:Hf.
  - set (g1 := drawn (length ((h0, m0) :: rest)) g) in *.
    destruct (randint_jitter j g1 Hj) as [_ Hjs].
    exists (at_second (datetime.date now + 1) (h0 * 3600 + m0 * 60 + next_jitter j g1)),
           h0, m0, (next_jitter j g1).
    split; [apply list_elem_of_here|]. split; [done|]. right. split; [done|].
    rewrite (get_next_schedule_time_rollover_eq now h0 m0 rest j g g1 ts).
    + do 2 f_equal. unfold g1, drawn; simpl. f_equal. lia.
    + unfold datetime.MAXORDINAL in *; lia.
    + done.
    + intros t Ht. destruct (datetime.gtb t now) eqn:E; [|done].
      assert (t ∈ filter (fun t => datetime.gtb t now = true) ts) as Hin'
        by (apply list_elem_of_filter; done).
      rewrite Hf in Hin'. by apply elem_of_nil in Hin'.
    + unfold representable, datetime.MAXORDINAL in *.
      assert (-1 <= (h0 * 3600 + m0 * 60 + next_jitter j g1) `div` 86400 <= 1).
      { split.
        - apply Z.div_le_lower_bound; lia.
        - apply Z.lt_succ_r, Z.div_lt_upper_bound; lia. }
      lia.
  - assert (Hmin : py_min t l ∈ filter (fun t => datetime.gtb t now = true) ts)
      by (rewrite Hf; apply py_min_elem).
    apply list_elem_of_filter in Hmin as [_ Hin].
    destruct (scheduled_times_loop_elems _ _ _ _ _ _ Hv Hj Hj' Hd' Hloop _ Hin)
      as (h & m & js & Hhm' & Hb & Heq).
    exists (py_min t l), h, m, js. split; [done|]. split; [done|]. left.
    split; [done|].
    by apply (get_next_schedule_time_today_eq now _ j g _ ts).
Qed.

Lemma get_next_schedule_time_within_jitter_witness :
  ∃ r h m js,
    (h, m) ∈ (9, 30) :: [(14, 0); (19, 0)] ∧ - 15 * 60 <= js <= 15 * 60 ∧
    ((r = at_second (datetime.date (datetime.mk 738000 10 0 0 0)) (h * 3600 + m * 60 + js) ∧
      get_next_schedule_time (datetime.mk 738000 10 0 0 0) ((9, 30) :: [(14, 0); (19, 0)])
        15 (mk_rng (fun n => Z.of_nat n * 100) 0)
      = Ok (r, drawn (length ((9, 30) :: [(14, 0); (19, 0)]))
                 (mk_rng (fun n => Z.of_nat n * 100) 0)))
     ∨
     (r = at_second (datetime.date (datetime.mk 738000 10 0 0 0) + 1)
            (h * 3600 + m * 60 + js) ∧
      get_next_schedule_time (datetime.mk 738000 10 0 0 0) ((9, 30) :: [(14, 0); (19, 0)])
        15 (mk_rng (fun n => Z.of_nat n * 100) 0)
      = Ok (r, drawn (S (length ((9, 30) :: [(14, 0); (19, 0)])))
                 (mk_rng (fun n => Z.of_nat n * 100) 0)))).
Proof.
  apply (get_next_schedule_time_within_jitter (datetime.mk 738000 10 0 0 0) 9 30
           [(14, 0); (19, 0)] 15 (mk_rng (fun n => Z.of_nat n * 100) 0)).
  - repeat constructor; simpl; lia.
  - lia.
  - lia.
  - unfold datetime.MAXORDINAL; simpl; lia.
Defined.

(** ** Slot keys and jitter *)

(** X5.  For a base time on a half-hour boundary, a jitter of 0 to 1799
    seconds keeps the key of the nominal time, and a jitter of -1800 to -1
    seconds gives another key. *)
Theorem schedule_key_of_jittered (d h m js : Z) :
  valid_hm (h, m) → m `mod` 30 = 0 →
  (0 <= js < 1800 →
   schedule_key (at_second d (h * 3600 + m * 60 + js)) = (d, h, m `div` 30)) ∧
  (-1800 <= js < 0 →
   schedule_key (at_second d (h * 3600 + m * 60 + js)) ≠ (d, h, m `div` 30)).
Proof.
  intros [Hh Hm] Hm30; simpl in Hh, Hm.
  assert (m = 0 ∨ m = 30) as Hcases by (Z.div_mod_to_equations; lia).
  unfold schedule_key, at_second.
  cbn [datetime.date datetime.hour datetime.minute]. split.
  - intros Hjs.
    assert (Hdate : d + (h * 3600 + m * 60 + js) `div` 86400 = d)
      by (destruct Hcases as [-> | ->]; Z.div_mod_to_equations; lia).
    assert (Hhour : ((h * 3600 + m * 60 + js) `mod` 86400) `div` 3600 = h)
      by (destruct Hcases as [-> | ->]; Z.div_mod_to_equations; lia).
    assert (Hbucket : ((((h * 3600 + m * 60 + js) `mod` 86400) `mod` 3600) `div` 60) `div` 30
                      = m `div` 30)
      by (destruct Hcases as [-> | ->]; Z.div_mod_to_equations; lia).
    by rewrite Hdate, Hhour, Hbucket.
  - intros Hjs Heq. injection Heq as Hdate Hhour Hbucket.
    destruct Hcases as [-> | ->]; Z.div_mod_to_equations; lia.
Qed.

Lemma schedule_key_of_jittered_witness :
  schedule_key (at_second 738000 (9 * 3600 + 30 * 60 + 600)) = (738000, 9, 30 `div` 30) ∧
  schedule_key (at_second 738000 (9 * 3600 + 30 * 60 + -1)) ≠ (738000, 9, 30 `div` 30).
Proof.
  split.
  - apply (proj1 (schedule_key_of_jittered 738000 9 30 600
                    ltac:(split; simpl; lia) ltac:(reflexivity))).
    lia.
  - apply (proj2 (schedule_key_of_jittered 738000 9 30 (-1)
                    ltac:(split; simpl; lia) ltac:(reflexivity))).
    lia.
Defined.

(** ** The wait *)

Lemma sleeps_before_S (target : datetime.t) (w w1 : World) (n : nat) :
  answers (clock w1) = answers (clock w) →
  asked (clock w1) = S (asked (clock w)) →
  sleeps_before target w (S n)
  = Sleep (Z.min 60000000 (datetime.sub_us target (reading w 0)))
    :: sleeps_before target w1 n.
Proof.
  intros Ha Hk. unfold sleeps_before. simpl. f_equal.
  rewrite <- seq_shift, map_map. apply map_ext. intros i.
  unfold reading. rewrite Ha, Hk. do 4 f_equal. lia.
Qed.

(** The wait, when the clock reaches the target at its [n]-th reading. *)
Lemma wait_until_reaches (fuel : nat) (target : datetime.t) (w : World)
    (n : nat) :
  (n < fuel)%nat →
  (∀ i, (i < n)%nat → 0 < datetime.sub_us target (reading w i)) →
  datetime.sub_us target (reading w n) <= 0 →
  wait_until fuel target w
  = (Val tt,
     mk_world (mk_oracle (answers (clock w)) (S (asked (clock w) + n)))
              (rng w) (children w) (is_file w) (log_day w)
              (trace w ++ sleeps_before target w n) (log_fs w)).
Proof.
  revert w n. induction fuel as [|fuel IH]; intros w n Hn Hearly Hreach; [lia|].
  simpl wait_until. rewrite bind_eff. unfold datetime_now, ask.
  destruct n as [|n].
  - unfold reading in Hreach. rewrite Nat.add_0_r in Hreach.
    apply Z.leb_le in Hreach. rewrite Hreach.
    unfold mret, Eff_ret, sleeps_before. simpl.
    by rewrite Nat.add_0_r, app_nil_r.
  - pose proof (Hearly 0%nat ltac:(lia)) as H0.
    unfold reading in H0. rewrite Nat.add_0_r in H0.
    replace (datetime.sub_us target (answers (clock w) (asked (clock w))) <=? 0)
      with false by (symmetry; apply Z.leb_gt; lia).
    rewrite bind_eff. unfold time_sleep, emit. cbv iota beta.
    set (w1 := mk_world _ _ _ _ _ _ _).
    rewrite (IH w1 n ltac:(lia)).
    + rewrite (sleeps_before_S target w w1 n eq_refl eq_refl).
      unfold w1; simpl. unfold reading. rewrite Nat.add_0_r.
      rewrite <- app_assoc. simpl. do 3 f_equal. lia.
    + intros i Hi. specialize (Hearly (S i) ltac:(lia)).
      unfold reading in *. simpl. by replace (S (asked (clock w) + i))
        with (asked (clock w) + S i)%nat by lia.
    + unfold reading in *. simpl. by replace (S (asked (clock w) + n))
        with (asked (clock w) + S n)%nat by lia.
Qed.

(** X6.  If the clock reaches the target at its [n]-th reading from now,
    and not before, a wait with more than [n] fuel returns then: it has
    read the clock [n + 1] times, slept once after each reading that was too
    early, for the remaining time but at most a minute, and touched nothing
    else. *)
Theorem wait_until_first_reading (fuel : nat) (target : datetime.t) (w : World)
    (n : nat) :
  (n < fuel)%nat →
  (∀ i, (i < n)%nat → 0 < datetime.sub_us target (reading w i)) →
  datetime.sub_us target (reading w n) <= 0 →
  wait_until fuel target w
  = (Val tt,
     mk_world (mk_oracle (answers (clock w)) (S (asked (clock w) + n)))
              (rng w) (children w) (is_file w) (log_day w)
              (trace w ++ sleeps_before target w n) (log_fs w)).
Proof.
  intros Hn Hearly Hreach.
  rewrite (wait_until_reaches fuel target w n Hn Hearly Hreach).
  reflexivity.
Qed.

Lemma wait_until_first_reading_witness :
  wait_until 5 (datetime.mk 738000 20 2 30 0) evening_world
  = (Val tt,
     mk_world (mk_oracle (answers (clock evening_world))
                         (S (asked (clock evening_world) + 3)))
              (rng evening_world) (children evening_world) (is_file evening_world)
              (log_day evening_world)
              (trace evening_world
               ++ sleeps_before (datetime.mk 738000 20 2 30 0) evening_world 3) (log_fs evening_world)).
Proof.
  apply (wait_until_first_reading 5 (datetime.mk 738000 20 2 30 0) evening_world 3).
  - lia.
  - intros i Hi.
    destruct i as [|[|[|i]]]; [by vm_compute | by vm_compute | by vm_compute | lia].
  - by vm_compute.
Defined.

(** X7.  The wait never returns early: when it returns, a reading within
    the fuel has reached the target and every reading before it was too
    early, so that every sleep was longer than zero and at most a minute. *)
Theorem wait_until_never_early (fuel : nat) (target : datetime.t) (w : World) :
  fst (wait_until fuel target w) = Val tt →
  ∃ n, (n < fuel)%nat ∧
       datetime.sub_us target (reading w n) <= 0 ∧
       (∀ i, (i < n)%nat → 0 < datetime.sub_us target (reading w i)) ∧
       trace (snd (wait_until fuel target w)) = trace w ++ sleeps_before target w n ∧
       (∀ us, Sleep us ∈ sleeps_before target w n → 0 < us <= 60000000).
Proof.
  assert (Hsound : ∀ fuel w, fst (wait_until fuel target w) = Val tt →
            ∃ n, (n < fuel)%nat ∧ datetime.sub_us target (reading w n) <= 0 ∧
                 ∀ i, (i < n)%nat → 0 < datetime.sub_us target (reading w i)).
  { clear fuel w. induction fuel as [|fuel IH]; intros w Hret; [done|].
    simpl wait_until in Hret. rewrite bind_eff in Hret. unfold datetime_now, ask in Hret.
    destruct (datetime.sub_us target (answers (clock w) (asked (clock w))) <=? 0) eqn:E.
    - exists 0%nat. unfold reading. rewrite Nat.add_0_r.
      apply Z.leb_le in E. split; [lia|]. split; [done|]. intros i Hi; lia.
    - apply Z.leb_gt in E. rewrite bind_eff in Hret. unfold time_sleep, emit in Hret.
      cbv iota beta in Hret.
      destruct (IH _ Hret) as (n & Hn & Hreach & Hearly).
      exists (S n). unfold reading in *. simpl in Hreach, Hearly.
      split; [lia|]. split.
      + by replace (asked (clock w) + S n)%nat with (S (asked (clock w) + n)) by lia.
      + intros [|i] Hi.
        * by rewrite Nat.add_0_r.
        * specialize (Hearly i ltac:(lia)).
          by replace (asked (clock w) + S i)%nat with (S (asked (clock w) + i)) by lia. }
  intros Hret. destruct (Hsound fuel w Hret) as (n & Hn & Hreach & Hearly).
  exists n. split; [done|]. split; [done|]. split; [done|]. split.
  - by rewrite (wait_until_reaches fuel target w n Hn Hearly Hreach).
  - intros us Hin. unfold sleeps_before in Hin.
    apply list_elem_of_fmap in Hin as (i & Heq & Hi).
    injection Heq as ->. apply elem_of_seq in Hi.
    specialize (Hearly i ltac:(lia)). lia.
Qed.

Lemma wait_until_never_early_witness :
  ∃ n, (n < 5)%nat ∧
       datetime.sub_us (datetime.mk 738000 20 2 30 0) (reading evening_world n) <= 0 ∧
       (∀ i, (i < n)%nat →
             0 < datetime.sub_us (datetime.mk 738000 20 2 30 0) (reading evening_world i)) ∧
       trace (snd (wait_until 5 (datetime.mk 738000 20 2 30 0) evening_world))
       = trace evening_world
         ++ sleeps_before (datetime.mk 738000 20 2 30 0) evening_world n ∧
       (∀ us, Sleep us ∈ sleeps_before (datetime.mk 738000 20 2 30 0) evening_world n →
              0 < us <= 60000000).
Proof.
  apply (wait_until_never_early 5 (datetime.mk 738000 20 2 30 0) evening_world).
  by vm_compute.
Defined.

(** ** Rounds of the loop *)

(** The wait leaves all but the clock and the trace alone, however it ends. *)
Lemma wait_until_frame (fuel : nat) (target : datetime.t) (w : World) :
  children (snd (wait_until fuel target w)) = children w ∧
  rng (snd (wait_until fuel target w)) = rng w ∧
  is_file (snd (wait_until fuel target w)) = is_file w ∧
  log_day (snd (wait_until fuel target w)) = log_day w.
Proof.
  revert w. induction fuel as [|fuel IH]; intros w; [done|].
  simpl wait_until. rewrite bind_eff. unfold datetime_now, ask.
  destruct (datetime.sub_us target (answers (clock w) (asked (clock w))) <=? 0); [done|].
  rewrite bind_eff. unfold time_sleep, emit. cbv iota beta.
  destruct (IH (mk_world (mk_oracle (answers (clock w)) (S (asked (clock w))))
                         (rng w) (children w) (is_file w) (log_day w)
                         (trace w ++ [Sleep (Z.min 60000000
                            (datetime.sub_us target (answers (clock w) (asked (clock w)))))]) (log_fs w)))
    as (H1 & H2 & H3 & H4).
  done.
Qed.

(** A round that comes to its end has computed a target and waited for it
    without touching the child, and ends as the duplicate check and the
    dispatch for that target end. *)
Lemma iteration_inv (once : bool) (deli_path : string) (fuel : nat)
    (st : LoopState) (w : World) (ctl : loop_ctl) :
  fst (iteration once deli_path fuel st w) = Val ctl →
  ∃ target g' w4,
    get_next_schedule_time (fst (ask (clock w))) SCHEDULE_TIMES JITTER_MINUTES (rng w)
    = Ok (target, g') ∧
    children w4 = children w ∧
    iteration once deli_path fuel st w
    = check_and_dispatch once deli_path target
        (after_new_day_check (fst (ask (clock w))) st) w4.
Proof.
  unfold iteration, after_new_day_check. rewrite bind_eff. unfold datetime_now.
  destruct (ask (clock w)) as [now c] eqn:Hask. cbn [fst]. rewrite bind_eff.
  set (w1 := mk_world c (rng w) (children w) (is_file w) (log_day w) (trace w) (log_fs w)).
  assert (Hnd : ∃ w2, new_day_check now st w1
                      = (Val (if decide (datetime.date now ≠ current_day st)
                              then mk_state ∅ (datetime.date now) else st), w2)
                      ∧ children w2 = children w ∧ rng w2 = rng w).
  { unfold new_day_check.
    destruct (decide (datetime.date now ≠ current_day st)); eexists;
      (split; [reflexivity|]); split; reflexivity. }
  destruct Hnd as (w2 & -> & Hc2 & Hg2). rewrite bind_eff. unfold with_rng.
  rewrite Hg2.
  destruct (get_next_schedule_time now SCHEDULE_TIMES JITTER_MINUTES (rng w))
    as [[target g']|e]; [|done].
  rewrite bind_eff. unfold logger_info, emit. cbv iota beta. rewrite bind_eff.
  set (w3 := mk_world _ _ _ _ _ _ _).
  pose proof (wait_until_frame fuel target w3) as (Hc4 & _).
  destruct (wait_until fuel target w3) as [[[]|e|] w4]; [|done|done].
  intros _. exists target, g', w4. split; [done|]. split; [|done].
  simpl in Hc4. by rewrite Hc4.
Qed.

(** The dispatch of a key that is not in the set: one call of
    [subprocess.run], the key added, and the return code that of the child
    or -1. *)
Lemma check_and_dispatch_runs (once : bool) (deli_path : string)
    (target : datetime.t) (st : LoopState) (w : World) :
  schedule_key target ∉ today_executed st →
  ∃ w', check_and_dispatch once deli_path target st w
        = (Val (if once then Stop (exit_code (fst (ask (children w))))
                else Next (mk_state ({[schedule_key target]} ∪ today_executed st)
                                    (current_day st))), w') ∧
        children w' = snd (ask (children w)).
Proof.
  intros Hnotin. unfold check_and_dispatch.
  destruct (decide (schedule_key target ∈ today_executed st)); [done|].
  rewrite bind_eff. unfold logger_info at 1, emit. cbv iota beta. rewrite bind_eff.
  destruct (run_deli_signup_returns deli_path
              (mk_world (clock w) (rng w) (children w) (is_file w) (log_day w)
                        (trace w ++ [Log INFO (MsgDispatch target)]) (log_fs w)))
    as (rc & tr & -> & Hrc).
  cbn [children fst snd] in *.
  assert (rc = exit_code (ask (children w)).1) as ->.
  { unfold exit_code.
    destruct ((ask (children w)).1); [done | by destruct Hrc | by destruct Hrc]. }
  destruct once; eexists; split; reflexivity.
Qed.

(** X8.  A round of the loop calls [subprocess.run] at most once, and
    only for a target whose key is not in the set left by the check for a
    new day; it then adds that key and nothing else.  Otherwise it leaves
    the set as that check left it. *)
Theorem iteration_dispatch_or_skip (deli_path : string) (fuel : nat)
    (st st' : LoopState) (w : World) :
  fst (iteration false deli_path fuel st w) = Val (Next st') →
  (st' = after_new_day_check (fst (ask (clock w))) st ∧
   children (snd (iteration false deli_path fuel st w)) = children w)
  ∨
  (∃ target,
     (schedule_key target
      ∉ today_executed (after_new_day_check (fst (ask (clock w))) st)) ∧
     today_executed st'
     = {[schedule_key target]}
       ∪ today_executed (after_new_day_check (fst (ask (clock w))) st) ∧
     current_day st' = current_day (after_new_day_check (fst (ask (clock w))) st) ∧
     children (snd (iteration false deli_path fuel st w)) = snd (ask (children w))).
Proof.
  intros Hret.
  destruct (iteration_inv _ _ _ _ _ _ Hret) as (target & g' & w4 & _ & Hc & Heq).
  rewrite Heq in *.
  set (st1 := after_new_day_check (fst (ask (clock w))) st) in *.
  destruct (decide (schedule_key target ∈ today_executed st1)) as [Hin|Hnotin].
  - left. rewrite (check_and_dispatch_skips false deli_path target st1 w4 Hin) in *.
    simpl in Hret. injection Hret as <-. done.
  - right. exists target.
    destruct (check_and_dispatch_runs false deli_path target st1 w4 Hnotin)
      as (w' & Hrun & Hc').
    rewrite Hrun in *. simpl in Hret. injection Hret as <-.
    cbn [snd today_executed current_day]. by rewrite Hc', Hc.
Qed.

Lemma iteration_dispatch_or_skip_witness :
  ∃ st',
    fst (iteration false "deliSignup.py" 1000 (mk_state ∅ 738000) evening_world)
    = Val (Next st') ∧
    ((st' = after_new_day_check (fst (ask (clock evening_world))) (mk_state ∅ 738000) ∧
      children (snd (iteration false "deliSignup.py" 1000 (mk_state ∅ 738000) evening_world))
      = children evening_world)
     ∨
     (∃ target,
        (schedule_key target
         ∉ today_executed (after_new_day_check (fst (ask (clock evening_world)))
                             (mk_state ∅ 738000))) ∧
        today_executed st'
        = {[schedule_key target]}
          ∪ today_executed (after_new_day_check (fst (ask (clock evening_world)))
                              (mk_state ∅ 738000)) ∧
        current_day st'
        = current_day (after_new_day_check (fst (ask (clock evening_world)))
                         (mk_state ∅ 738000)) ∧
        children (snd (iteration false "deliSignup.py" 1000 (mk_state ∅ 738000)
                         evening_world))
        = snd (ask (children evening_world)))).
Proof.
  exists (mk_state {[(738001, 9, 1)]} 738000).
  assert (H : fst (iteration false "deliSignup.py" 1000 (mk_state ∅ 738000) evening_world)
              = Val (Next (mk_state {[(738001, 9, 1)]} 738000)))
    by (vm_compute; reflexivity).
  split; [exact H|].
  exact (iteration_dispatch_or_skip "deliSignup.py" 1000 (mk_state ∅ 738000)
           (mk_state {[(738001, 9, 1)]} 738000) evening_world H).
Defined.

(** ** [main] in its two modes *)

(** [setup_logging] either raises what the file system refused, leaving
    the world as it was, or returns with the log day set; it touches nothing
    but the clock and the log day. *)
Lemma setup_logging_cases (log_dir : string) (w : World) :
  ∃ o w1,
    setup_logging log_dir w = (o, w1) ∧
    children w1 = children w ∧ is_file w1 = is_file w ∧ rng w1 = rng w ∧
    trace w1 = trace w ∧ log_fs w1 = log_fs w ∧
    ((∃ e, o = Exn e ∧ log_day w1 = log_day w) ∨
     (o = Val tt ∧
      log_fs w (Makedirs log_dir) = None ∧
      (log_day w = None →
       log_fs w (OpenLog log_dir (datetime.date (fst (ask (clock w))))) = None) ∧
      clock w1 = snd (ask (clock w)) ∧
      log_day w1 = Some (match log_day w with
                         | Some d => d
                         | None => datetime.date (fst (ask (clock w)))
                         end))).
Proof.
  unfold setup_logging, install_handlers, add_handlers, logger_has_handlers,
    fs_do, date_today, datetime_now, mbind, Eff_bind, mret, Eff_ret.
  destruct (log_fs w (Makedirs log_dir)) as [f|] eqn:Hdir.
  { eexists _, _. split; [reflexivity|]. repeat (split; [reflexivity|]). left. eauto. }
  destruct (ask (clock w)) as [now c] eqn:Hask.
  cbn [fst snd clock rng children is_file log_day trace log_fs].
  destruct (log_day w) as [d|] eqn:Hday;
    cbn [negb fst snd clock rng children is_file log_day trace log_fs].
  { eexists _, _. split; [reflexivity|]. repeat (split; [reflexivity|]). right.
    cbn [clock log_day]. done. }
  destruct (log_fs w (OpenLog log_dir (datetime.date now))) as [f|] eqn:Hopen;
    cbn [negb fst snd clock rng children is_file log_day trace log_fs].
  - eexists _, _. split; [reflexivity|]. repeat (split; [reflexivity|]). left.
    cbn [log_day]. eauto.
  - eexists _, _. split; [reflexivity|]. repeat (split; [reflexivity|]). right.
    cbn [clock log_day]. done.
Qed.

(** With the script in place, [main] either ends with the exception of
    [setup_logging], or enters the loop with an empty set. *)
Lemma main_enters_loop (once : bool) (here : string) (fuel : nat) (w : World) :
  is_file w (os_path_join here "deliSignup.py") = true →
  (∃ e w', main once here fuel w = (Exn e, w'))
  ∨
  (∃ st0 w0,
     today_executed st0 = ∅ ∧
     children w0 = children w ∧
     main once here fuel w
     = main_loop once (os_path_join here "deliSignup.py") fuel st0 w0).
Proof.
  intros Hfile. unfold main. cbv zeta. rewrite bind_eff.
  destruct (setup_logging_cases (os_path_join here "log") w)
    as (o & w1 & -> & Hc & Hf & _ & _ & _ & [(e & -> & _) | (-> & _)]).
  - left. eauto.
  - right. rewrite bind_eff. unfold logger_info at 1, emit at 1. cbv iota beta.
    rewrite bind_eff. unfold os_path_isfile at 1. cbv iota beta.
    cbn [is_file]. rewrite Hf, Hfile. cbn [negb].
    rewrite bind_eff. unfold date_today. rewrite bind_eff. unfold datetime_now.
    cbn [clock rng children is_file log_day trace log_fs].
    destruct (ask (clock w1)) as [now2 c2]. unfold mret at 1, Eff_ret at 1.
    cbv iota beta.
    eexists (mk_state ∅ _), _. split; [reflexivity|]. split; [|reflexivity].
    cbn [children]. exact Hc.
Qed.

(** A round that is not in [--once] mode never ends with [return]. *)
Lemma iteration_daemon_next (deli_path : string) (fuel : nat) (st : LoopState)
    (w : World) (ctl : loop_ctl) :
  fst (iteration false deli_path fuel st w) = Val ctl → ∃ st', ctl = Next st'.
Proof.
  intros Hret.
  destruct (iteration_inv _ _ _ _ _ _ Hret) as (target & g' & w4 & _ & _ & Heq).
  rewrite Heq in Hret.
  set (st1 := after_new_day_check (fst (ask (clock w))) st) in *.
  destruct (decide (schedule_key target ∈ today_executed st1)) as [Hin|Hnotin].
  - rewrite (check_and_dispatch_skips false deli_path target st1 w4 Hin) in Hret.
    injection Hret as <-. eauto.
  - destruct (check_and_dispatch_runs false deli_path target st1 w4 Hnotin)
      as (w' & Hrun & _).
    rewrite Hrun in Hret. injection Hret as <-. eauto.
Qed.

Lemma main_loop_daemon_never_returns (deli_path : string) (fuel : nat)
    (st : LoopState) (w : World) (rc : Z) :
  fst (main_loop false deli_path fuel st w) ≠ Val rc.
Proof.
  revert st w. induction fuel as [|fuel IH]; intros st w; [done|].
  simpl main_loop. rewrite bind_eff.
  destruct (iteration false deli_path (S fuel) st w) as [[ctl|e|] w'] eqn:Hit;
    [|done|done].
  destruct (iteration_daemon_next deli_path (S fuel) st w ctl) as [st' ->];
    [by rewrite Hit|].
  apply IH.
Qed.

(** X9.  Without [--once] and with the script in place, [main] never
    returns an exit status, whatever the clock, the draws and the children
    do and however long it runs: the loop has no way out but an exception. *)
Theorem main_daemon_never_returns (here : string) (fuel : nat) (w : World) (rc : Z) :
  is_file w (os_path_join here "deliSignup.py") = true →
  fst (main false here fuel w) ≠ Val rc.
Proof.
  intros Hfile.
  destruct (main_enters_loop false here fuel w Hfile)
    as [(e & w' & ->) | (st0 & w0 & _ & _ & ->)]; [done|].
  apply main_loop_daemon_never_returns.
Qed.

Lemma main_daemon_never_returns_witness :
  fst (main false "/opt/deli" 3 evening_world) ≠ Val 0.
Proof.
  apply (main_daemon_never_returns "/opt/deli" 3 evening_world 0).
  reflexivity.
Defined.

(** X10.  With [--once] and the script in place, whenever [main] returns
    an exit status it has called [subprocess.run] exactly once, and the
    status is the return code of that child, or -1 when it could not be
    launched: the first round never skips. *)
Theorem main_once_runs_child_once (here : string) (fuel : nat) (w : World) (rc : Z) :
  is_file w (os_path_join here "deliSignup.py") = true →
  fst (main true here fuel w) = Val rc →
  rc = exit_code (fst (ask (children w))) ∧
  children (snd (main true here fuel w)) = snd (ask (children w)).
Proof.
  intros Hfile.
  destruct (main_enters_loop true here fuel w Hfile)
    as [(e & w' & ->) | (st0 & w0 & Hst0 & Hc0 & ->)]; [done|].
  destruct fuel as [|fuel]; [done|].
  simpl main_loop. rewrite bind_eff.
  destruct (iteration true (os_path_join here "deliSignup.py") (S fuel) st0 w0)
    as [[ctl|e|] w'] eqn:Hit; [|done|done].
  destruct (iteration_inv true (os_path_join here "deliSignup.py") (S fuel) st0 w0 ctl)
    as (target & g' & w4 & _ & Hc4 & Heq); [by rewrite Hit|].
  rewrite Heq in Hit.
  assert (Hempty : today_executed (after_new_day_check (fst (ask (clock w0))) st0) = ∅).
  { unfold after_new_day_check.
    by destruct (decide (datetime.date (fst (ask (clock w0))) ≠ current_day st0)). }
  destruct (check_and_dispatch_runs true (os_path_join here "deliSignup.py") target
              (after_new_day_check (fst (ask (clock w0))) st0) w4)
    as (w5 & Hrun & Hc5).
  { rewrite Hempty. apply not_elem_of_empty. }
  rewrite Hrun in Hit. injection Hit as <- <-.
  unfold mret, Eff_ret. cbn [fst snd]. intros [= <-].
  by rewrite Hc5, Hc4, Hc0.
Qed.

Lemma main_once_runs_child_once_witness :
  3 = exit_code (fst (ask (children
        (mk_world (evening_clock 738000) late_fifth_draw
                  (mk_oracle (fun _ => Completed (mk_proc 3 "" "late")) 0)
                  (fun _ => true) None [] (fun _ => None))))) ∧
  children (snd (main true "/opt/deli" 1000
        (mk_world (evening_clock 738000) late_fifth_draw
                  (mk_oracle (fun _ => Completed (mk_proc 3 "" "late")) 0)
                  (fun _ => true) None [] (fun _ => None))))
  = snd (ask (children
        (mk_world (evening_clock 738000) late_fifth_draw
                  (mk_oracle (fun _ => Completed (mk_proc 3 "" "late")) 0)
                  (fun _ => true) None [] (fun _ => None)))).
Proof.
  apply (main_once_runs_child_once "/opt/deli" 1000
           (mk_world (evening_clock 738000) late_fifth_draw
                     (mk_oracle (fun _ => Completed (mk_proc 3 "" "late")) 0)
                     (fun _ => true) None [] (fun _ => None)) 3).
  - reflexivity.
  - vm_compute. reflexivity.
Defined.



(** X12.  A round whose target has a key that is in the set left by the
    check for a new day does not call [subprocess.run]: it logs the skip at
    level WARNING as its last record and goes on with the set unchanged, in
    either mode. *)
Theorem iteration_skips_recorded_key (once : bool) (deli_path : string) (fuel : nat)
    (st : LoopState) (w : World) (target : datetime.t) (g' : Rng) (ctl : loop_ctl) :
  get_next_schedule_time (fst (ask (clock w))) SCHEDULE_TIMES JITTER_MINUTES (rng w)
  = Ok (target, g') →
  schedule_key target ∈ today_executed (after_new_day_check (fst (ask (clock w))) st) →
  fst (iteration once deli_path fuel st w) = Val ctl →
  ctl = Next (after_new_day_check (fst (ask (clock w))) st) ∧
  children (snd (iteration once deli_path fuel st w)) = children w ∧
  last (trace (snd (iteration once deli_path fuel st w)))
  = Some (Log WARNING (MsgSkip target)).
Proof.
  intros Hnext Hin Hret.
  destruct (iteration_inv _ _ _ _ _ _ Hret) as (target' & g'' & w4 & Hnext' & Hc & Heq).
  rewrite Hnext in Hnext'. injection Hnext' as <- <-.
  rewrite Heq in *.
  rewrite (check_and_dispatch_skips once deli_path target _ w4 Hin) in *.
  injection Hret as <-. cbn [snd children trace].
  split; [done|]. split; [done|]. apply last_snoc.
Qed.

Lemma iteration_skips_recorded_key_witness :
  Next (mk_state {[(738001, 9, 1)]} 738001)
  = Next (after_new_day_check (fst (ask (clock morning_world)))
            (mk_state {[(738001, 9, 1)]} 738001)) ∧
  children (snd (iteration false "deliSignup.py" 100
                   (mk_state {[(738001, 9, 1)]} 738001) morning_world))
  = children morning_world ∧
  last (trace (snd (iteration false "deliSignup.py" 100
                      (mk_state {[(738001, 9, 1)]} 738001) morning_world)))
  = Some (Log WARNING (MsgSkip (datetime.mk 738001 9 40 0 0))).
Proof.
  apply (iteration_skips_recorded_key false "deliSignup.py" 100
           (mk_state {[(738001, 9, 1)]} 738001) morning_world
           (datetime.mk 738001 9 40 0 0) (mk_rng (rng_raw late_fifth_draw) 7)).
  - reflexivity.
  - assert (Hst : after_new_day_check (fst (ask (clock morning_world)))
                    (mk_state {[(738001, 9, 1)]} 738001)
                  = mk_state {[(738001, 9, 1)]} 738001) by reflexivity.
    rewrite Hst. cbn [today_executed].
    change (schedule_key (datetime.mk 738001 9 40 0 0)) with (738001, 9, 1).
    by apply elem_of_singleton.
  - vm_compute. reflexivity.
Defined.

(** ** The name of the log file *)

Section Frame.

Context (R : World → World → Prop).
Hypothesis R_refl : ∀ w, R w w.
Hypothesis R_trans : ∀ w1 w2 w3, R w1 w2 → R w2 w3 → R w1 w3.
Hypothesis R_emit : ∀ ev, keeps R (emit ev).
Hypothesis R_now : keeps R datetime_now.
Hypothesis R_rng : ∀ (A : Type) (f : Rng → result (A * Rng)), keeps R (with_rng f).
Hypothesis R_run : ∀ p, keeps R (subprocess_run p).

Lemma keeps_ret {A : Type} (a : A) : keeps R (mret a).
Proof. intros w. apply R_refl. Qed.

Lemma keeps_bind {A B : Type} (m : Eff A) (f : A → Eff B) :
  keeps R m → (∀ a, keeps R (f a)) → keeps R (m ≫= f).
Proof.
  intros Hm Hf w. rewrite bind_eff. specialize (Hm w).
  destruct (m w) as [[a|e|] w']; simpl in *; [|done|done].
  eapply R_trans; [exact Hm | apply Hf].
Qed.

Lemma keeps_try_except {A : Type} (body : Eff A) (handler : exc_class → Eff A) :
  keeps R body → (∀ e, keeps R (handler e)) → keeps R (try_except_eff body handler).
Proof.
  intros Hb Hh w. unfold try_except_eff. specialize (Hb w).
  destruct (body w) as [[a|e|] w']; simpl in *; [done| |done].
  destruct (is_Exception e); [|done].
  eapply R_trans; [exact Hb | apply Hh].
Qed.

Lemma keeps_when (b : bool) (m : Eff unit) : keeps R m → keeps R (when b m).
Proof. intros Hm. destruct b; [done | apply keeps_ret]. Qed.

Lemma keeps_run_deli_signup (script_path : string) : keeps R (run_deli_signup script_path).
Proof.
  unfold run_deli_signup, logger_info, logger_warning, logger_exception.
  apply keeps_bind; [apply R_emit|]. intros _.
  apply keeps_try_except.
  - apply keeps_bind; [apply R_run|]. intros proc.
    apply keeps_bind; [apply R_emit|]. intros _.
    apply keeps_bind.
    { apply keeps_when, keeps_bind; [apply R_emit|]. intros _. apply R_emit. }
    intros _. apply keeps_bind.
    { apply keeps_when, keeps_bind; [apply R_emit|]. intros _. apply R_emit. }
    intros _. apply keeps_ret.
  - intros e. apply keeps_bind; [apply R_emit|]. intros _. apply keeps_ret.
Qed.

Lemma keeps_wait_until (fuel : nat) (target : datetime.t) :
  keeps R (wait_until fuel target).
Proof.
  induction fuel as [|fuel IH]; [intros w; apply R_refl|].
  simpl wait_until. apply keeps_bind; [apply R_now|]. intros now.
  destruct (datetime.sub_us target now <=? 0); [apply keeps_ret|].
  apply keeps_bind; [apply R_emit|]. intros _. apply IH.
Qed.

Lemma keeps_new_day_check (now : datetime.t) (st : LoopState) :
  keeps R (new_day_check now st).
Proof.
  unfold new_day_check, logger_info.
  destruct (decide (datetime.date now ≠ current_day st)); [|apply keeps_ret].
  apply keeps_bind; [apply R_emit|]. intros _. apply keeps_ret.
Qed.

Lemma keeps_check_and_dispatch (once : bool) (deli_path : string)
    (target : datetime.t) (st : LoopState) :
  keeps R (check_and_dispatch once deli_path target st).
Proof.
  unfold check_and_dispatch, logger_info, logger_warning.
  destruct (decide (schedule_key target ∈ today_executed st)).
  - apply keeps_bind; [apply R_emit|]. intros _. apply keeps_ret.
  - apply keeps_bind; [apply R_emit|]. intros _.
    apply keeps_bind; [apply keeps_run_deli_signup|]. intros rc.
    apply keeps_bind; [apply R_emit|]. intros _.
    destruct once; (apply keeps_bind; [apply R_emit|]); intros _; apply keeps_ret.
Qed.

Lemma keeps_iteration (once : bool) (deli_path : string) (fuel : nat) (st : LoopState) :
  keeps R (iteration once deli_path fuel st).
Proof.
  unfold iteration, logger_info.
  apply keeps_bind; [apply R_now|]. intros now.
  apply keeps_bind; [apply keeps_new_day_check|]. intros st1.
  apply keeps_bind; [apply R_rng|]. intros target.
  apply keeps_bind; [apply R_emit|]. intros _.
  apply keeps_bind; [apply keeps_wait_until|]. intros _.
  apply keeps_check_and_dispatch.
Qed.

Lemma keeps_main_loop (once : bool) (deli_path : string) (fuel : nat) (st : LoopState) :
  keeps R (main_loop once deli_path fuel st).
Proof.
  revert st. induction fuel as [|fuel IH]; intros st; [intros w; apply R_refl|].
  simpl main_loop. apply keeps_bind; [apply keeps_iteration|].
  intros [st'|rc]; [apply IH | apply keeps_ret].
Qed.

End Frame.

(** X13.  The day in the name of the log file is decided once, by
    [setup_logging] at the start of [main], and is never changed
    afterwards, however many days the loop runs: the scheduler does not
    move to a new log file at midnight.  When the file system lets the log
    be set up, that day is the one installed before or else the day of the
    first reading of the clock. *)
Theorem main_log_day_fixed (once : bool) (here : string) (fuel : nat) (w : World) :
  log_day (snd (main once here fuel w))
  = log_day (snd (setup_logging (os_path_join here "log") w))
  ∧
  (log_fs w (Makedirs (os_path_join here "log")) = None →
   (log_day w = None →
    log_fs w (OpenLog (os_path_join here "log") (datetime.date (fst (ask (clock w)))))
    = None) →
   log_day (snd (main once here fuel w))
   = Some (match log_day w with
           | Some d => d
           | None => datetime.date (fst (ask (clock w)))
           end)).
Proof.
  assert (Hloop : ∀ p f st, keeps same_log_day (main_loop once p f st)).
  { intros p f st. apply keeps_main_loop; try done.
    - intros w1 w2 w3 H12 H23. unfold same_log_day in *. congruence.
    - intros A f0 w0. unfold same_log_day, with_rng.
      by destruct (f0 (rng w0)) as [[a g]|e].
    - intros p0 w0. unfold same_log_day, subprocess_run.
      by destruct (ask (children w0)) as [[proc|l|rc0] c]. }
  assert (Hfixed : log_day (snd (main once here fuel w))
                   = log_day (snd (setup_logging (os_path_join here "log") w))).
  { unfold main. cbv zeta. rewrite bind_eff.
    destruct (setup_logging (os_path_join here "log") w) as [[[]|e|] w1];
      [|reflexivity|reflexivity].
    cbn [snd]. rewrite bind_eff. unfold logger_info at 1, emit at 1.
    cbv iota beta. rewrite bind_eff. unfold os_path_isfile at 1. cbv iota beta.
    cbn [is_file].
    destruct (negb (is_file w1 (os_path_join here "deliSignup.py"))).
    - reflexivity.
    - rewrite bind_eff. unfold date_today. rewrite bind_eff. unfold datetime_now.
      cbn [clock rng children is_file log_day trace log_fs].
      destruct (ask (clock w1)) as [now2 c2]. unfold mret at 1, Eff_ret at 1.
      cbv iota beta. exact (Hloop _ _ _ _). }
  split; [exact Hfixed|].
  intros Hdir Hopen. rewrite Hfixed.
  assert (Hval : fst (setup_logging (os_path_join here "log") w) = Val tt).
  { unfold setup_logging, install_handlers, add_handlers, logger_has_handlers,
      fs_do, date_today, datetime_now, mbind, Eff_bind, mret, Eff_ret.
    rewrite Hdir. destruct (ask (clock w)) as [now c] eqn:Hask.
    cbn [fst snd clock rng children is_file log_day trace log_fs] in *.
    destruct (log_day w) as [d|];
      cbn [negb fst snd clock rng children is_file log_day trace log_fs]; [done|].
    by rewrite (Hopen eq_refl). }
  destruct (setup_logging_cases (os_path_join here "log") w)
    as (o & w1 & Heq & _ & _ & _ & _ & _ & [(e & -> & _) | (-> & _ & _ & _ & Hday)]);
    rewrite Heq in *.
  - done.
  - exact Hday.
Qed.

(** The start of [main] in the evening of day 738000, no handler installed
    yet. *)
Lemma main_log_day_fixed_witness :
  log_day (snd (main false "/opt/deli" 3
                  (mk_world (evening_clock 738000) late_fifth_draw
                            (mk_oracle (fun _ => Completed (mk_proc 0 "" "")) 0)
                            (fun _ => true) None [] (fun _ => None))))
  = Some (match log_day (mk_world (evening_clock 738000) late_fifth_draw
                            (mk_oracle (fun _ => Completed (mk_proc 0 "" "")) 0)
                            (fun _ => true) None [] (fun _ => None)) with
          | Some d => d
          | None => datetime.date (fst (ask (clock
                      (mk_world (evening_clock 738000) late_fifth_draw
                            (mk_oracle (fun _ => Completed (mk_proc 0 "" "")) 0)
                            (fun _ => true) None [] (fun _ => None)))))
          end).
Proof.
  apply (proj2 (main_log_day_fixed false "/opt/deli" 3
                  (mk_world (evening_clock 738000) late_fifth_draw
                            (mk_oracle (fun _ => Completed (mk_proc 0 "" "")) 0)
                            (fun _ => true) None [] (fun _ => None)))).
  - reflexivity.
  - intros _. reflexivity.
Defined.

(** ** The mail helper, continued *)

(** X14.  For a content that UTF-8 can encode, [send_email] stops at the
    first step inside the [try] that raises (the connection, the TLS
    upgrade, the login, the serialisation of the message, the submission,
    the closing, the [print] of the success, in this order): when the
    standard output takes the report, it returns [False] and has printed the
    exception of that step, whatever the later steps would have done. *)
Theorem send_email_first_failure (subject content sender_email sender_password
    receiver_email smtp_server : pystr) (smtp_port : Z) (env : mail_env)
    (k : nat) (e : exc_class) :
  utf8_encodable content = true →
  session_failures subject content sender_email sender_password receiver_email
    smtp_server smtp_port env !! k = Some (Some e) →
  (∀ i : nat,
     (i < k)%nat →
     session_failures subject content sender_email sender_password receiver_email
       smtp_server smtp_port env !! i = Some None) →
  print_fails env (PrintFailed e) = None →
  send_email subject content sender_email sender_password receiver_email
             smtp_server smtp_port env
  = Ok (false, [PrintFailed e]).
Proof.
  intros Henc Hk Hbefore Hprint. unfold send_email.
  rewrite (build_message_encodable _ _ _ _ Henc), bind_Ok.
  unfold session_failures in Hk, Hbefore. cbv zeta in Hk, Hbefore.
  set (msg := mk_msg content sender_email receiver_email subject) in *.
  destruct k as [|[|[|[|[|[|[|k]]]]]]]; simpl in Hk; try done; injection Hk as Hk.
  - destruct (smtp_do_fail _ _ _ Hk) as [-> He].
    by apply send_email_handler; [rewrite bind_Raise | |].
  - pose proof (Hbefore 0%nat ltac:(lia)) as [= H0].
    destruct (smtp_do_fail _ _ _ Hk) as [Hr He].
    rewrite (smtp_do_ok _ _ H0), bind_Ok, Hr.
    by apply send_email_handler; [rewrite bind_Raise | |].
  - pose proof (Hbefore 0%nat ltac:(lia)) as [= H0].
    pose proof (Hbefore 1%nat ltac:(lia)) as [= H1].
    destruct (smtp_do_fail _ _ _ Hk) as [Hr He].
    rewrite (smtp_do_ok _ _ H0), bind_Ok, (smtp_do_ok _ _ H1), bind_Ok, Hr.
    by apply send_email_handler; [rewrite bind_Raise | |].
  - pose proof (Hbefore 0%nat ltac:(lia)) as [= H0].
    pose proof (Hbefore 1%nat ltac:(lia)) as [= H1].
    pose proof (Hbefore 2%nat ltac:(lia)) as [= H2].
    destruct (as_string_fail _ _ _ Hk) as [Hr He].
    rewrite (smtp_do_ok _ _ H0), bind_Ok, (smtp_do_ok _ _ H1), bind_Ok,
      (smtp_do_ok _ _ H2), bind_Ok, Hr.
    by apply send_email_handler; [rewrite bind_Raise | |].
  - pose proof (Hbefore 0%nat ltac:(lia)) as [= H0].
    pose proof (Hbefore 1%nat ltac:(lia)) as [= H1].
    pose proof (Hbefore 2%nat ltac:(lia)) as [= H2].
    pose proof (Hbefore 3%nat ltac:(lia)) as [= H3].
    destruct (smtp_do_fail _ _ _ Hk) as [Hr He].
    rewrite (smtp_do_ok _ _ H0), bind_Ok, (smtp_do_ok _ _ H1), bind_Ok,
      (smtp_do_ok _ _ H2), bind_Ok, (as_string_ok _ _ H3), bind_Ok, Hr.
    by apply send_email_handler; [rewrite bind_Raise | |].
  - pose proof (Hbefore 0%nat ltac:(lia)) as [= H0].
    pose proof (Hbefore 1%nat ltac:(lia)) as [= H1].
    pose proof (Hbefore 2%nat ltac:(lia)) as [= H2].
    pose proof (Hbefore 3%nat ltac:(lia)) as [= H3].
    pose proof (Hbefore 4%nat ltac:(lia)) as [= H4].
    destruct (smtp_do_fail _ _ _ Hk) as [Hr He].
    rewrite (smtp_do_ok _ _ H0), bind_Ok, (smtp_do_ok _ _ H1), bind_Ok,
      (smtp_do_ok _ _ H2), bind_Ok, (as_string_ok _ _ H3), bind_Ok,
      (smtp_do_ok _ _ H4), bind_Ok, Hr.
    by apply send_email_handler; [rewrite bind_Raise | |].
  - pose proof (Hbefore 0%nat ltac:(lia)) as [= H0].
    pose proof (Hbefore 1%nat ltac:(lia)) as [= H1].
    pose proof (Hbefore 2%nat ltac:(lia)) as [= H2].
    pose proof (Hbefore 3%nat ltac:(lia)) as [= H3].
    pose proof (Hbefore 4%nat ltac:(lia)) as [= H4].
    pose proof (Hbefore 5%nat ltac:(lia)) as [= H5].
    rewrite (smtp_do_ok _ _ H0), bind_Ok, (smtp_do_ok _ _ H1), bind_Ok,
      (smtp_do_ok _ _ H2), bind_Ok, (as_string_ok _ _ H3), bind_Ok,
      (smtp_do_ok _ _ H4), bind_Ok, (smtp_do_ok _ _ H5), bind_Ok.
    unfold py_print at 1.
    destruct (print_fails env PrintSent) as [f|]; [|done]. injection Hk as <-.
    apply send_email_handler; [by rewrite bind_Raise | apply print_exc_is_Exception | done].
Qed.

(** A server that accepts the connection and refuses the TLS upgrade, and
    would refuse the login as well; and a serialiser that refuses the
    message after a login that went through. *)
Lemma send_email_first_failure_witness :
  send_email (text "alert") (text "Hello") (text "a@qq.com") (text "code")
    (text "b@qq.com") (text "smtp.qq.com") 587
    (mk_env (fun c => match c with
                      | SMTP_starttls => Some TlsNotSupported
                      | SMTP_login _ _ => Some AuthenticationFailed
                      | _ => None
                      end) (fun _ => None) (fun _ => None))
  = Ok (false, [PrintFailed SMTPNotSupportedError])
  ∧
  send_email (text "alert") (text "Hello") (text "a@qq.com") (text "code")
    (text "b@qq.com") (text "smtp.qq.com") 587
    (mk_env (fun _ => None) (fun _ => Some BareNewlineInHeader) (fun _ => None))
  = Ok (false, [PrintFailed HeaderWriteError]).
Proof.
  split.
  - apply (send_email_first_failure (text "alert") (text "Hello") (text "a@qq.com")
             (text "code") (text "b@qq.com") (text "smtp.qq.com") 587
             (mk_env (fun c => match c with
                               | SMTP_starttls => Some TlsNotSupported
                               | SMTP_login _ _ => Some AuthenticationFailed
                               | _ => None
                               end) (fun _ => None) (fun _ => None))
             1 SMTPNotSupportedError).
    + reflexivity.
    + reflexivity.
    + intros i Hi. destruct i as [|i]; [reflexivity | lia].
    + reflexivity.
  - apply (send_email_first_failure (text "alert") (text "Hello") (text "a@qq.com")
             (text "code") (text "b@qq.com") (text "smtp.qq.com") 587
             (mk_env (fun _ => None) (fun _ => Some BareNewlineInHeader) (fun _ => None))
             3 HeaderWriteError).
    + reflexivity.
    + reflexivity.
    + intros i Hi. destruct i as [|[|[|i]]]; [reflexivity | reflexivity | reflexivity | lia].
    + reflexivity.
Defined.
